(** * Configuration-driven ETL converter: a shallow embedding

    The development follows [config_driven_converter.py], class
    [ConfigDrivenETLConverter].  The converter is driven by three JSON
    documents (input schema, output schema, processing rules); it parses
    fixed-width lines, validates a table, evaluates a fixed catalogue of
    condition strings, dispatches six named transformation rules, applies
    field mappings and assembles the output table.

    Modelling conventions.
    - Python [str] is [string]: a sequence of code points below 256.  In
      that range [str.isspace] and the regular expression class [\d] are
      those written out below.
    - Python [float] is the kernel's binary64 [float]; Python [int] is [Z].
    - A JSON object is a record whose fields are [option]s: [d[k]] raises
      [KeyError k] on [None], [d.get(k, x)] falls back to [x].
    - A Python [dict] keyed by field names is a [gmap string _]; a literal
      dict returned by a handler is kept as an association list in source
      order.
    - Exceptions and the module-level [logger] are threaded through one
      monad [M]: a computation yields the records it logged and either a
      value or the exception it raised.
    - The builtins [float(str)] and [str(float)] are not code of this
      program; they are the [Variable]s of Section [Converter].
    - [datetime.strptime] and [datetime.strftime] are those of CPython on
      Linux: [%Y] reads exactly four digits, and writes the year without
      leading zeros. *)

From Stdlib Require Import ZArith String Ascii List Lia Bool.
From Stdlib Require Import Floats.PrimFloat Floats.SpecFloat Floats.FloatOps.
From stdpp Require Import base option list gmap strings.

Local Open Scope string_scope.
Local Open Scope list_scope.
Local Open Scope Z_scope.

(** ** Python strings *)

Module PyStr.

Definition len (s : string) : Z := Z.of_nat (String.length s).

(** Normalisation of one slice bound, as [PySlice_AdjustIndices] does for
    step 1: a negative bound counts from the end, and both are clipped
    to [0, len]. *)
Definition adjust (n i : Z) : Z :=
  if i <? 0 then Z.max 0 (i + n) else Z.min i n.

(** [s[lo:hi]] *)
Definition slice (s : string) (lo hi : Z) : string :=
  let a := adjust (len s) lo in
  let b := adjust (len s) hi in
  if a <? b then String.substring (Z.to_nat a) (Z.to_nat (b - a)) s else "".

(** [s[:hi]] *)
Definition slice_to (s : string) (hi : Z) : string := slice s 0 hi.

(** [str.isspace] on one code point below 256. *)
Definition isspace (c : ascii) : bool :=
  let n := Z.of_N (N_of_ascii c) in
  ((9 <=? n) && (n <=? 13)) || ((28 <=? n) && (n <=? 32))
  || (n =? 133) || (n =? 160).

Fixpoint lstrip_by (p : ascii -> bool) (s : string) : string :=
  match s with
  | String c s' => if p c then lstrip_by p s' else s
  | EmptyString => EmptyString
  end.

Definition rstrip_by (p : ascii -> bool) (s : string) : string :=
  String.rev (lstrip_by p (String.rev s)).

(** [s.strip()] *)
Definition strip (s : string) : string := rstrip_by isspace (lstrip_by isspace s).

(** [line.rstrip('\n\r')] *)
Definition is_newline (c : ascii) : bool :=
  let n := N_of_ascii c in (n =? 10)%N || (n =? 13)%N.

Definition rstrip_newline (s : string) : string := rstrip_by is_newline s.

(** [needle in hay] *)
Fixpoint contains (needle hay : string) : bool :=
  String.prefix needle hay
  || match hay with
     | String _ hay' => contains needle hay'
     | EmptyString => false
     end.

(** [s.endswith(suffix)] *)
Definition endswith (s suffix : string) : bool :=
  String.prefix (String.rev suffix) (String.rev s).

Definition is_digit (c : ascii) : bool :=
  let n := N_of_ascii c in (48 <=? n)%N && (n <=? 57)%N.

Definition digit_val (c : ascii) : Z := Z.of_N (N_of_ascii c) - 48.

Definition digit_char (d : Z) : ascii := ascii_of_N (Z.to_N (48 + d)).

(** Decimal digits of a natural number, most significant first, on
    exactly [w] places (the value is taken modulo [10^w]). *)
Fixpoint zero_pad (w : nat) (n : Z) : string :=
  match w with
  | O => ""
  | S w' => zero_pad w' (n / 10) +:+ String (digit_char (n mod 10)) ""
  end.

Fixpoint digits_of_pos (fuel : nat) (n : Z) (acc : string) : string :=
  match fuel with
  | O => acc
  | S fuel' =>
      let acc' := String (digit_char (n mod 10)) acc in
      if n <? 10 then acc' else digits_of_pos fuel' (n / 10) acc'
  end.

(** [str(n)] for an [int]. *)
Definition of_int (n : Z) : string :=
  if n <? 0
  then String "-" (digits_of_pos (S (Z.to_nat (Z.log2 (- n)))) (- n) "")
  else digits_of_pos (S (Z.to_nat (Z.log2 n))) n "".

End PyStr.

(** ** Values, exceptions and the logger *)

(** What a cell of a table, or a scalar of a configuration document, holds. *)
Inductive value :=
| VStr (s : string)
| VInt (n : Z)
| VFloat (f : float)
| VNone.

Abbreviation Row := (gmap string value).

(** [row.get(key, default)] *)
Definition row_get (row : Row) (key : string) (default : value) : value :=
  match row !! key with
  | Some v => v
  | None => default
  end.

(** Truth value of an object ([bool(v)]); a NaN is true. *)
Definition truthy (v : value) : bool :=
  match v with
  | VStr s => negb (String.eqb s "")
  | VInt n => negb (n =? 0)
  | VFloat f => negb (PrimFloat.eqb f 0%float)
  | VNone => false
  end.

(** [pd.isna(v)] on a scalar. *)
Definition isna (v : value) : bool :=
  match v with
  | VFloat f => PrimFloat.is_nan f
  | VNone => true
  | _ => false
  end.

(** [v == s] for a string literal [s]. *)
Definition eq_str (v : value) (s : string) : bool :=
  match v with
  | VStr s' => String.eqb s' s
  | _ => false
  end.

(** [v in [s1, ..., sn]] for string literals. *)
Definition in_strs (v : value) (l : list string) : bool :=
  existsb (eq_str v) l.

(** Exact comparison of an [int] with a [float], as [==] does. *)
Definition int_eq_float (n : Z) (f : float) : bool :=
  match Prim2SF f with
  | S754_zero _ => n =? 0
  | S754_finite s m e =>
      let sm := if s then Z.neg m else Z.pos m in
      if 0 <=? e then n =? sm * 2 ^ e else n * 2 ^ (- e) =? sm
  | _ => false
  end.

(** [v == w] *)
Definition py_eq (v w : value) : bool :=
  match v, w with
  | VStr a, VStr b => String.eqb a b
  | VInt a, VInt b => a =? b
  | VFloat a, VFloat b => PrimFloat.eqb a b
  | VInt a, VFloat b => int_eq_float a b
  | VFloat a, VInt b => int_eq_float b a
  | VNone, VNone => true
  | _, _ => false
  end.

Inductive exn :=
| KeyError (key : string)
| ValueError (msg : string)
| TypeError
| OverflowError
| OSError (msg : string).

Inductive result (A : Type) :=
| Ok (a : A)
| Raise (e : exn).
Arguments Ok {A} a.
Arguments Raise {A} e.

Inductive log_level := INFO | WARNING | ERROR.

(** The call sites of [logger]; the payload is what the message
    interpolates, where that is a name, a number or a set of names. *)
Inductive log_message :=
| MsgReadingDat (path : string)
| MsgParsedRecords (n : Z)
| MsgErrorReadingDat (path : string) (e : exn)
| MsgFieldBeyondLine (line_num : Z) (field : string)
| MsgFieldEmpty (line_num : Z) (field : string)
| MsgInvalidNumeric (line_num : Z) (field text : string)
| MsgErrorParsingLine (line_num : Z) (e : exn)
| MsgValidating
| MsgMissingColumns (cols : gset string)
| MsgMissingFields (cols : gset string)
| MsgInvalidCurrency (vals : list value)
| MsgInvalidProductType (vals : list value)
| MsgValidationPassed
| MsgErrorEvaluating (condition : string) (e : exn)
| MsgConverting (n : Z) (processing_name : string)
| MsgErrorTransforming (idx : Z) (e : exn)
| MsgConverted (n : Z).

Definition log_record : Type := log_level * log_message.

(** A computation: the records logged, then a value or an exception. *)
Definition M (A : Type) : Type := list log_record * result A.

Definition ret {A} (a : A) : M A := ([], Ok a).

Definition raise {A} (e : exn) : M A := ([], Raise e).

Definition bind {A B} (m : M A) (k : A -> M B) : M B :=
  match m with
  | (l, Ok a) => let '(l', r) := k a in (l ++ l', r)
  | (l, Raise e) => (l, Raise e)
  end.

(** [try: m except Exception as e: h e] *)
Definition try_except {A} (m : M A) (h : exn -> M A) : M A :=
  match m with
  | (l, Raise e) => let '(l', r) := h e in (l ++ l', r)
  | _ => m
  end.

Definition log (lv : log_level) (msg : log_message) : M unit := ([(lv, msg)], Ok tt).

Definition lift {A} (r : result A) : M A := ([], r).

(** [d[k]] on a JSON object whose key [k] is the optional field [o]. *)
Definition item {A} (key : string) (o : option A) : M A :=
  match o with
  | Some a => ret a
  | None => raise (KeyError key)
  end.

Definition outcome {A} (m : M A) : result A := snd m.
Definition logged {A} (m : M A) : list log_record := fst m.

Declare Scope M_scope.
Delimit Scope M_scope with M.
Notation "x <- m ;; k" := (bind m (fun x => k))
  (at level 100, m at next level, right associativity) : M_scope.
Notation "m ;;; k" := (bind m (fun _ => k))
  (at level 100, right associativity) : M_scope.
Local Open Scope M_scope.

(** [when c: m] *)
Definition when (c : bool) (m : M unit) : M unit := if c then m else ret tt.

Fixpoint foldM {A B} (f : A -> B -> M A) (l : list B) (a : A) : M A :=
  match l with
  | [] => ret a
  | b :: l' => a' <- f a b;; foldM f l' a'
  end.

Fixpoint mapM {A B} (f : A -> M B) (l : list A) : M (list B) :=
  match l with
  | [] => ret []
  | a :: l' => b <- f a;; bs <- mapM f l';; ret (b :: bs)
  end.

(** ** Configuration documents *)

(** One entry of [columns] in a schema document. *)
Record Column := {
  col_name : option string;
  col_length : option Z;
  col_data_type : option string;
  col_required : option bool
}.

(** One entry of [validation_rules]. *)
Record ValidationRule := {
  vr_rule_type : option string;
  vr_fields : option (list string);
  vr_field : option string;
  vr_valid_values : option (list value)
}.

Record AdditionalFields := {
  af_fields : option (list string)
}.

(** Input and output schema share one shape. *)
Record Schema := {
  sch_columns : option (list Column);
  sch_validation_rules : option (list ValidationRule);
  sch_additional_fields : option AdditionalFields
}.

(** One entry of [logic.conditions]. *)
Record Condition := {
  cond_condition : option string;
  cond_action : option string;
  cond_value : option value;
  cond_source_field : option string
}.

(** [logic]; [default_action], when present, is a JSON object. *)
Record Logic := {
  lg_conditions : option (list Condition);
  lg_default_action : option (list (string * value))
}.

Record TransformationRule := {
  rule_id : option string;
  rule_output_field : option string;
  rule_logic : option Logic
}.

Record FieldMapping := {
  fm_output_field : option string;
  fm_input_field : option string;
  fm_transformation : option string;
  fm_default_value : option value
}.

(** [processing_name] is read by [__init__], so a converter that exists
    has it. *)
Record ProcessingRules := {
  processing_name : string;
  transformation_rules : option (list TransformationRule);
  field_mappings : option (list FieldMapping)
}.

(** The state of a constructed [ConfigDrivenETLConverter]. *)
Record ConfigDrivenETLConverter := {
  input_schema : Schema;
  output_schema : Schema;
  processing_rules : ProcessingRules
}.

(** ** Tables *)

(** A [pd.DataFrame]: column labels, and the rows in index order as
    [iterrows()] yields them (each row already carries whatever common
    type pandas gave its cells). *)
Record DataFrame := {
  df_columns : list string;
  df_rows : list Row
}.

Definition nan : float := PrimFloat.nan.

(** A row carries one cell per column label; a missing one is NaN. *)
Definition reindex (cols : list string) (r : Row) : Row :=
  list_to_map ((fun c => (c, row_get r c (VFloat nan))) <$> cols).

(** [pd.DataFrame(records)]: the labels are the keys of the records; the
    order pandas gives them (that of their first appearance) is not
    modelled, the records being unordered maps. *)
Definition DataFrame_of_records (records : list Row) : DataFrame :=
  let cols := elements (foldr (fun (r : Row) (acc : gset string) => dom r ∪ acc) ∅ records) in
  {| df_columns := cols; df_rows := map (reindex cols) records |}.

(** [pd.DataFrame(records, columns=cols)] *)
Definition DataFrame_with_columns (records : list Row) (cols : list string) : DataFrame :=
  {| df_columns := cols; df_rows := map (reindex cols) records |}.

(** [c in df.columns] *)
Definition has_column (df : DataFrame) (c : string) : bool :=
  bool_decide (c ∈ df_columns df).

(** [set(names) - set(df.columns)] *)
Definition missing_from (names : list string) (df : DataFrame) : gset string :=
  list_to_set names ∖ list_to_set (df_columns df).

Definition is_empty_set (s : gset string) : bool := bool_decide (s = ∅).

Fixpoint unique (l : list value) : list value :=
  match l with
  | [] => []
  | v :: l' => v :: filter (fun w => negb (py_eq v w) = true) (unique l')
  end.

(** [set(df[field].dropna().unique()) - set(valid_values)] *)
Definition invalid_values (df : DataFrame) (field : string) (valid_values : list value)
  : list value :=
  let observed := map (fun r => row_get r field (VFloat nan)) (df_rows df) in
  let present := filter (fun v => isna v = false) observed in
  filter (fun v => existsb (py_eq v) valid_values = false) (unique present).

(** [float(n)] for an [int]: the nearest binary64, or [OverflowError]. *)
Definition float_of_int (n : Z) : result float :=
  let f := SF2Prim (binary_normalize prec emax n 0 false) in
  if PrimFloat.is_infinity f then Raise OverflowError else Ok f.

Section Converter.

(** [float(s)] for a [str]: [None] stands for [ValueError]. *)
Variable float_of_str : string -> option float.
(** [str(f)] for a [float]. *)
Variable str_of_float : float -> string.

(** [float(v)] *)
Definition py_float (v : value) : result float :=
  match v with
  | VStr s =>
      match float_of_str s with
      | Some f => Ok f
      | None => Raise (ValueError "could not convert string to float")
      end
  | VInt n => float_of_int n
  | VFloat f => Ok f
  | VNone => Raise TypeError
  end.

(** [str(v)] *)
Definition py_str (v : value) : string :=
  match v with
  | VStr s => s
  | VInt n => PyStr.of_int n
  | VFloat f => str_of_float f
  | VNone => "None"
  end.

Definition safe_float_conversion (value : value) : result float :=
  if truthy value then
    match py_float value with
    | Ok f => Ok f
    | Raise (ValueError _) => Ok 0%float
    | Raise TypeError => Ok 0%float
    | Raise e => Raise e
    end
  else Ok 0%float.

Variable self : ConfigDrivenETLConverter.

(** *** Fixed-width parser *)

(** The body of the loop of [parse_dat_line]: the state is the record
    built so far and the running [position]. *)
Definition parse_column (line : string) (line_num : Z)
    (st : Row * Z) (column : Column) : M (Row * Z) :=
  let '(record, position) := st in
  field_name <- item "name" (col_name column);;
  let field_length := default 1 (col_length column) in
  let data_type := default "string" (col_data_type column) in
  let required := default false (col_required column) in
  field_value <-
    (if position + field_length >? PyStr.len line then
       when required (log WARNING (MsgFieldBeyondLine line_num field_name));;;
       ret ""
     else
       ret (PyStr.strip (PyStr.slice line position (position + field_length))));;
  when (required && String.eqb field_value "")
       (log WARNING (MsgFieldEmpty line_num field_name));;;
  record' <-
    (if String.eqb data_type "string" then
       ret (<[field_name := VStr field_value]> record)
     else if String.eqb data_type "numeric" then
       if String.eqb field_value "" then
         ret (<[field_name := VFloat 0%float]> record)
       else
         match float_of_str field_value with
         | Some f => ret (<[field_name := VFloat f]> record)
         | None =>
             log WARNING (MsgInvalidNumeric line_num field_name field_value);;;
             ret (<[field_name := VFloat 0%float]> record)
         end
     else
       ret (<[field_name := VStr field_value]> record));;
  ret (record', position + field_length).

(** [None] is Python's [None], returned from the [except] branch. *)
Definition parse_dat_line (line : string) (line_num : Z) : M (option Row) :=
  try_except
    (columns <- item "columns" (sch_columns (input_schema self));;
     st <- foldM (parse_column line line_num) columns (∅, 0);;
     ret (Some (fst st)))
    (fun e => log ERROR (MsgErrorParsingLine line_num e);;; ret None).

(** The loop of [read_dat_file] over the lines of the file, numbered
    from [line_num]. *)
Fixpoint read_dat_lines (lines : list string) (line_num : Z) : M (list Row) :=
  match lines with
  | [] => ret []
  | line :: lines' =>
      let line := PyStr.rstrip_newline line in
      if String.eqb (PyStr.strip line) "" then read_dat_lines lines' (line_num + 1)
      else
        record <- parse_dat_line line line_num;;
        rest <- read_dat_lines lines' (line_num + 1);;
        match record with
        | Some r => if bool_decide (r = ∅) then ret rest else ret (r :: rest)
        | None => ret rest
        end
  end.

(** [open(file_path).readlines()] and [pd.read_csv(file_path)]. *)
Variable readlines : string -> result (list string).
Variable read_csv : string -> result DataFrame.

Definition read_dat_file (file_path : string) : M DataFrame :=
  log INFO (MsgReadingDat file_path);;;
  try_except
    (lines <- lift (readlines file_path);;
     records <- read_dat_lines lines 1;;
     let df := DataFrame_of_records records in
     log INFO (MsgParsedRecords (Z.of_nat (length (df_rows df))));;;
     ret df)
    (fun e => log ERROR (MsgErrorReadingDat file_path e);;; raise e).

(** *** Validator *)

Definition apply_validation_rule (df : DataFrame) (rule : ValidationRule) : M bool :=
  rule_type <- item "rule_type" (vr_rule_type rule);;
  if String.eqb rule_type "required_fields" then
    fields <- item "fields" (vr_fields rule);;
    let missing_fields := missing_from fields df in
    if negb (is_empty_set missing_fields) then
      log ERROR (MsgMissingFields missing_fields);;;
      ret false
    else ret true
  else if String.eqb rule_type "currency_validation" then
    field <- item "field" (vr_field rule);;
    valid_values <- item "valid_values" (vr_valid_values rule);;
    when (has_column df field)
         (let invalid := invalid_values df field valid_values in
          when (negb (bool_decide (invalid = [])))
               (log WARNING (MsgInvalidCurrency invalid)));;;
    ret true
  else if String.eqb rule_type "product_type_validation" then
    field <- item "field" (vr_field rule);;
    valid_values <- item "valid_values" (vr_valid_values rule);;
    when (has_column df field)
         (let invalid := invalid_values df field valid_values in
          when (negb (bool_decide (invalid = [])))
               (log WARNING (MsgInvalidProductType invalid)));;;
    ret true
  else ret true.

(** The loop over the named rules: the first one that returns [False]
    ends the validation. *)
Fixpoint validate_rules (df : DataFrame) (rules : list ValidationRule) : M bool :=
  match rules with
  | [] => log INFO MsgValidationPassed;;; ret true
  | rule :: rules' =>
      ok <- apply_validation_rule df rule;;
      if negb ok then ret false else validate_rules df rules'
  end.

(** [[col['name'] for col in columns if col.get('required', False)]] *)
Fixpoint required_names (columns : list Column) : M (list string) :=
  match columns with
  | [] => ret []
  | col :: columns' =>
      if default false (col_required col) then
        name <- item "name" (col_name col);;
        rest <- required_names columns';;
        ret (name :: rest)
      else required_names columns'
  end.

Definition validate_input_data (df : DataFrame) : M bool :=
  log INFO MsgValidating;;;
  columns <- item "columns" (sch_columns (input_schema self));;
  required_columns <- required_names columns;;
  let missing_columns := missing_from required_columns df in
  if negb (is_empty_set missing_columns) then
    log ERROR (MsgMissingColumns missing_columns);;;
    ret false
  else
    validate_rules df (default [] (sch_validation_rules (input_schema self))).

(** *** Condition evaluator *)

Definition pat_jpy_dg := "CURRENCY_Cosmos == 'JPY' AND PRODUCT_TYPE IN ['D', 'G']".
Definition pat_jpy_other := "CURRENCY_Cosmos == 'JPY' AND PRODUCT_TYPE NOT IN ['D', 'G']".
Definition pat_nojpy_dg := "CURRENCY_Cosmos != 'JPY' AND PRODUCT_TYPE IN ['D', 'G']".
Definition pat_nojpy_other := "CURRENCY_Cosmos != 'JPY' AND PRODUCT_TYPE NOT IN ['D', 'G']".
Definition pat_flex_jpy := "Currency_Flex == 'JPY'".
Definition pat_flex_nojpy := "Currency_Flex != 'JPY'".
Definition pat_y_nonneg := "CONTRACT_STATUS == 'Y' AND FACE_VALUE >= 0".
Definition pat_y_neg := "CONTRACT_STATUS == 'Y' AND FACE_VALUE < 0".
Definition pat_a_nonneg := "CONTRACT_STATUS == 'A' AND FACE_VALUE >= 0".
Definition pat_a_neg := "CONTRACT_STATUS == 'A' AND FACE_VALUE < 0".

(** The ten pattern texts, in the order of the [if]/[elif] chain. *)
Definition condition_patterns : list string :=
  [pat_jpy_dg; pat_jpy_other; pat_nojpy_dg; pat_nojpy_other;
   pat_flex_jpy; pat_flex_nojpy;
   pat_y_nonneg; pat_y_neg; pat_a_nonneg; pat_a_neg].

(** The [try] block of [evaluate_condition]. *)
Definition evaluate_condition_body (row : Row) (condition : string) : M bool :=
  let currency_cosmos := row_get row "CURRENCY_Cosmos" (VStr "") in
  let currency_flex := row_get row "Currency_Flex" (VStr "") in
  let product_type := row_get row "PRODUCT_TYPE" (VStr "") in
  let contract_status := row_get row "CONTRACT_STATUS" (VStr "") in
  face_value <- lift (safe_float_conversion (row_get row "FACE_VALUE" (VInt 0)));;
  if PyStr.contains pat_jpy_dg condition then
    ret (eq_str currency_cosmos "JPY" && in_strs product_type ["D"; "G"])
  else if PyStr.contains pat_jpy_other condition then
    ret (eq_str currency_cosmos "JPY" && negb (in_strs product_type ["D"; "G"]))
  else if PyStr.contains pat_nojpy_dg condition then
    ret (negb (eq_str currency_cosmos "JPY") && in_strs product_type ["D"; "G"])
  else if PyStr.contains pat_nojpy_other condition then
    ret (negb (eq_str currency_cosmos "JPY") && negb (in_strs product_type ["D"; "G"]))
  else if PyStr.contains pat_flex_jpy condition then
    ret (eq_str currency_flex "JPY")
  else if PyStr.contains pat_flex_nojpy condition then
    ret (negb (eq_str currency_flex "JPY"))
  else if PyStr.contains pat_y_nonneg condition then
    ret (eq_str contract_status "Y" && PrimFloat.leb 0 face_value)
  else if PyStr.contains pat_y_neg condition then
    ret (eq_str contract_status "Y" && PrimFloat.ltb face_value 0)
  else if PyStr.contains pat_a_nonneg condition then
    ret (eq_str contract_status "A" && PrimFloat.leb 0 face_value)
  else if PyStr.contains pat_a_neg condition then
    ret (eq_str contract_status "A" && PrimFloat.ltb face_value 0)
  else ret false.

Definition evaluate_condition (row : Row) (condition : string) : M bool :=
  try_except
    (evaluate_condition_body row condition)
    (fun e => log WARNING (MsgErrorEvaluating condition e);;; ret false).

(** *** Rule handlers *)

(** What a handler returns: a scalar ([None] is [Scalar VNone]) or a
    dict of output fields. *)
Inductive py_object :=
| Scalar (v : value)
| Dict (d : list (string * value)).

(** [rule['logic']['conditions']] *)
Definition rule_conditions (rule : TransformationRule) : M (list Condition) :=
  logic <- item "logic" (rule_logic rule);;
  item "conditions" (lg_conditions logic).

Fixpoint leaf_gl_loop (row : Row) (leaf_gl : value) (conditions : list Condition)
  : M value :=
  match conditions with
  | [] => ret leaf_gl
  | condition :: conditions' =>
      c <- item "condition" (cond_condition condition);;
      matched <- evaluate_condition row c;;
      if matched then
        action <- item "action" (cond_action condition);;
        if PyStr.contains "JPY_D_G" action then
          ret (VStr (py_str leaf_gl +:+ "_JPY_D_G"))
        else if PyStr.contains "JPY_OTHER" action then
          ret (VStr (py_str leaf_gl +:+ "_JPY_OTHER"))
        else if PyStr.contains "NOJPY_D_G" action then
          ret (VStr (py_str leaf_gl +:+ "_NOJPY_D_G"))
        else if PyStr.contains "NOJPY_OTHER" action then
          ret (VStr (py_str leaf_gl +:+ "_NOJPY_OTHER"))
        else leaf_gl_loop row leaf_gl conditions'
      else leaf_gl_loop row leaf_gl conditions'
  end.

Definition calculate_leaf_gl_from_config (row : Row) (rule : TransformationRule)
  : M value :=
  let leaf_gl := row_get row "LEAF_GL" (VStr "") in
  conditions <- rule_conditions rule;;
  leaf_gl_loop row leaf_gl conditions.

Fixpoint accrual_account_loop (row : Row) (conditions : list Condition) : M value :=
  match conditions with
  | [] => ret (VStr "")
  | condition :: conditions' =>
      c <- item "condition" (cond_condition condition);;
      matched <- evaluate_condition row c;;
      if matched then
        source_field <- item "source_field" (cond_source_field condition);;
        ret (VStr (py_str (row_get row source_field (VStr ""))))
      else accrual_account_loop row conditions'
  end.

Definition calculate_accrual_account_from_config (row : Row) (rule : TransformationRule)
  : M value :=
  conditions <- rule_conditions rule;;
  accrual_account_loop row conditions.

(** The loop of [calculate_drorcr_from_config]: [Some v] when it
    returned [v], [None] when it ran to its end. *)
Fixpoint drorcr_loop (row : Row) (conditions : list Condition) : M (option value) :=
  match conditions with
  | [] => ret None
  | condition :: conditions' =>
      c <- item "condition" (cond_condition condition);;
      matched <- evaluate_condition row c;;
      if matched then
        v <- item "value" (cond_value condition);;
        ret (Some v)
      else drorcr_loop row conditions'
  end.

(** [rule['logic'].get('default_action', {})], then its truth value. *)
Definition default_action_configured (logic : Logic) : bool :=
  match default [] (lg_default_action logic) with
  | [] => false
  | _ :: _ => true
  end.

Definition calculate_drorcr_from_config (row : Row) (rule : TransformationRule)
  : M value :=
  conditions <- rule_conditions rule;;
  returned <- drorcr_loop row conditions;;
  match returned with
  | Some v => ret v
  | None =>
      logic <- item "logic" (rule_logic rule);;
      if default_action_configured logic then
        face_value <- lift (safe_float_conversion (row_get row "FACE_VALUE" (VInt 0)));;
        ret (VStr (if PrimFloat.leb 0 face_value then "C" else "D"))
      else ret (VStr "C")
  end.

Definition calculate_balance_sign_from_config (row : Row) (rule : TransformationRule)
  : M (list (string * value)) :=
  let currency_flex := row_get row "Currency_Flex" (VStr "") in
  amount <-
    (if eq_str currency_flex "JPY" then
       lift (safe_float_conversion (row_get row "LCY_FACE_VALUE" (VInt 0)))
     else
       lift (safe_float_conversion (row_get row "FACE_VALUE" (VInt 0))));;
  let sign := if PrimFloat.ltb amount 0 then "D" else "C" in
  ret [("OPBALSIGN", VStr sign); ("CLBALSIGN", VStr sign)].

Definition calculate_amounts_from_config (row : Row) (rule : TransformationRule)
  : M (list (string * value)) :=
  let currency_flex := row_get row "Currency_Flex" (VStr "") in
  amount <-
    (if eq_str currency_flex "JPY" then
       lift (safe_float_conversion (row_get row "LCY_FACE_VALUE" (VInt 0)))
     else
       lift (safe_float_conversion (row_get row "FACE_VALUE" (VInt 0))));;
  ret [("AMOUNT", VFloat (PrimFloat.abs amount));
       ("OPBAL", VFloat amount);
       ("CLBAL", VFloat amount)].

(** *** Dates

    [datetime.strptime] turns a format into a regular expression
    (Lib/_strptime.py) and matches it at the start of the text, first
    alternative first, with backtracking:
    [%Y] is [\d\d\d\d], [%m] is [1[0-2]|0[1-9]|[1-9]] and
    [%d] is [3[0-1]|[1-2]\d|0[1-9]|[1-9]| [1-9]]. *)

Inductive directive := DirY | Dirm | Dird.

Inductive token :=
| TDir (d : directive)
| TLit (c : ascii).

Record date := {
  year : Z;
  month : Z;
  day : Z
}.

(** The directives of a format string; [None] for a directive other
    than the three above. *)
Fixpoint tokens_of_format (fmt : string) : option (list token) :=
  match fmt with
  | EmptyString => Some []
  | String "%" (String c fmt') =>
      d ← (if Ascii.eqb c "Y" then Some DirY
           else if Ascii.eqb c "m" then Some Dirm
           else if Ascii.eqb c "d" then Some Dird
           else None);
      ts ← tokens_of_format fmt';
      Some (TDir d :: ts)
  | String c fmt' =>
      ts ← tokens_of_format fmt';
      Some (TLit c :: ts)
  end.

Definition in_range (lo hi : ascii) (c : ascii) : bool :=
  (N_of_ascii lo <=? N_of_ascii c)%N && (N_of_ascii c <=? N_of_ascii hi)%N.

(** One alternative of two characters, read as a number. *)
Definition two_chars (p1 p2 : ascii -> bool) (s : string) : option (Z * string) :=
  match s with
  | String a (String b rest) =>
      if p1 a && p2 b then Some (10 * PyStr.digit_val a + PyStr.digit_val b, rest)
      else None
  | _ => None
  end.

Definition one_char (p : ascii -> bool) (s : string) : option (Z * string) :=
  match s with
  | String a rest => if p a then Some (PyStr.digit_val a, rest) else None
  | _ => None
  end.

(** A space, then one digit: the last alternative of [%d]. *)
Definition space_char (p : ascii -> bool) (s : string) : option (Z * string) :=
  match s with
  | String " " (String b rest) => if p b then Some (PyStr.digit_val b, rest) else None
  | _ => None
  end.

Definition four_digits (s : string) : option (Z * string) :=
  match s with
  | String a (String b (String c (String d rest))) =>
      if PyStr.is_digit a && PyStr.is_digit b && PyStr.is_digit c && PyStr.is_digit d
      then Some (1000 * PyStr.digit_val a + 100 * PyStr.digit_val b
                 + 10 * PyStr.digit_val c + PyStr.digit_val d, rest)
      else None
  | _ => None
  end.

(** The ways a directive matches a prefix of [s], in the order the
    regular expression tries them. *)
Definition candidates (d : directive) (s : string) : list (Z * string) :=
  omap id
    match d with
    | DirY => [four_digits s]
    | Dirm => [two_chars (Ascii.eqb "1") (in_range "0" "2") s;
               two_chars (Ascii.eqb "0") (in_range "1" "9") s;
               one_char (in_range "1" "9") s]
    | Dird => [two_chars (Ascii.eqb "3") (in_range "0" "1") s;
               two_chars (in_range "1" "2") PyStr.is_digit s;
               two_chars (Ascii.eqb "0") (in_range "1" "9") s;
               one_char (in_range "1" "9") s;
               space_char (in_range "1" "9") s]
    end.

Definition set_field (d : directive) (v : Z) (dt : date) : date :=
  match d with
  | DirY => {| year := v; month := month dt; day := day dt |}
  | Dirm => {| year := year dt; month := v; day := day dt |}
  | Dird => {| year := year dt; month := month dt; day := v |}
  end.

Fixpoint first_some {A B} (f : A -> option B) (l : list A) : option B :=
  match l with
  | [] => None
  | a :: l' => match f a with Some b => Some b | None => first_some f l' end
  end.

(** [format_regex.match(s)]: the fields found and the unmatched rest. *)
Fixpoint regex_match (ts : list token) (s : string) (dt : date)
  : option (date * string) :=
  match ts with
  | [] => Some (dt, s)
  | TLit c :: ts' =>
      match s with
      | String c' s' => if Ascii.eqb c c' then regex_match ts' s' dt else None
      | EmptyString => None
      end
  | TDir d :: ts' =>
      first_some (fun '(v, rest) => regex_match ts' rest (set_field d v dt))
                 (candidates d s)
  end.

Definition is_leap (y : Z) : bool :=
  (y mod 4 =? 0) && (negb (y mod 100 =? 0) || (y mod 400 =? 0)).

Definition days_in_month (y m : Z) : Z :=
  if m =? 2 then (if is_leap y then 29 else 28)
  else if (m =? 4) || (m =? 6) || (m =? 9) || (m =? 11) then 30
  else 31.

(** The range checks of the [date] constructor. *)
Definition valid_date (dt : date) : bool :=
  (1 <=? year dt) && (year dt <=? 9999)
  && (1 <=? month dt) && (month dt <=? 12)
  && (1 <=? day dt) && (day dt <=? days_in_month (year dt) (month dt)).

(** [datetime.strptime(s, fmt)], up to the date it finds; [None] stands
    for [ValueError] (no match, unconverted data, or a day that does
    not exist). *)
Definition strptime (s fmt : string) : option date :=
  ts ← tokens_of_format fmt;
  '(dt, rest) ← regex_match ts s {| year := 1900; month := 1; day := 1 |};
  if String.eqb rest "" && valid_date dt then Some dt else None.

(** [dt.strftime('%Y%m%d')], as the C library under CPython writes it on
    Linux: month and day on two digits, the year as a plain decimal
    number, so without leading zeros below 1000. *)
Definition strftime_Ymd (dt : date) : string :=
  PyStr.of_int (year dt) +:+ PyStr.zero_pad 2 (month dt)
  +:+ PyStr.zero_pad 2 (day dt).

Definition date_formats : list string :=
  ["%Y-%m-%d"; "%Y%m%d"; "%d/%m/%Y"; "%m/%d/%Y"].

(** The [for fmt in ...] loop of [format_date]: the first format that
    parses. *)
Fixpoint try_formats (s : string) (fmts : list string) : option date :=
  match fmts with
  | [] => None
  | fmt :: fmts' =>
      match strptime s fmt with
      | Some dt => Some dt
      | None => try_formats s fmts'
      end
  end.

(** Nothing under the outer [try] raises anything but the [ValueError]
    the loop catches, so its [except Exception] branch is never taken. *)
Definition format_date (date_str : value) : string :=
  if negb (truthy date_str) || isna date_str then ""
  else
    match try_formats (py_str date_str) date_formats with
    | Some dt => strftime_Ymd dt
    | None => PyStr.slice_to (py_str date_str) 8
    end.

Definition date_mappings : list (string * string) :=
  [("VALUEDATE", "VALUE_DATE"); ("ENTRYDATE", "DEAL_DATE");
   ("OPBALDATE", "VALUE_DATE"); ("CLBALDATE", "VALUE_DATE")].

Definition format_dates_from_config (row : Row) (rule : TransformationRule)
  : M (list (string * value)) :=
  ret (map (fun '(output_field, input_field) =>
              (output_field, VStr (format_date (row_get row input_field (VStr "")))))
           date_mappings).

Definition apply_transformation_rule (row : Row) (rule : TransformationRule)
  : M py_object :=
  rule_id <- item "rule_id" (rule_id rule);;
  if String.eqb rule_id "LEAF_GL_CALCULATION" then
    v <- calculate_leaf_gl_from_config row rule;; ret (Scalar v)
  else if String.eqb rule_id "ACCRUAL_ACCOUNT_LOGIC" then
    v <- calculate_accrual_account_from_config row rule;; ret (Scalar v)
  else if String.eqb rule_id "DRORCR_CALCULATION" then
    v <- calculate_drorcr_from_config row rule;; ret (Scalar v)
  else if String.eqb rule_id "BALANCE_SIGN_CALCULATION" then
    d <- calculate_balance_sign_from_config row rule;; ret (Dict d)
  else if String.eqb rule_id "DATE_FORMATTING" then
    d <- format_dates_from_config row rule;; ret (Dict d)
  else if String.eqb rule_id "AMOUNT_CALCULATION" then
    d <- calculate_amounts_from_config row rule;; ret (Dict d)
  else ret (Scalar VNone).

(** *** Field mapper *)

Definition apply_field_mapping (row : Row) (mapping : FieldMapping) : M value :=
  transformation <- item "transformation" (fm_transformation mapping);;
  input_field <- item "input_field" (fm_input_field mapping);;
  if String.eqb transformation "DIRECT_COPY" then
    ret (row_get row input_field (VStr ""))
  else if String.eqb transformation "DEFAULT_VALUE" then
    item "default_value" (fm_default_value mapping)
  else if String.eqb transformation "STRING_CONVERSION" then
    ret (VStr (py_str (row_get row input_field (VStr ""))))
  else ret (VStr "").

(** *** Row transformer *)

(** [transformed.update(d)] *)
Definition dict_update (transformed : Row) (d : list (string * value)) : Row :=
  foldl (fun t '(k, v) => <[k := v]> t) transformed d.

(** The body of the first loop of [transform_row]. *)
Definition apply_rule_step (row : Row) (transformed : Row) (rule : TransformationRule)
  : M Row :=
  result <- apply_transformation_rule row rule;;
  match result with
  | Dict d => ret (dict_update transformed d)
  | Scalar VNone => ret transformed
  | Scalar v =>
      match rule_output_field rule with
      | Some output_field =>
          if negb (String.eqb output_field "")
          then ret (<[output_field := v]> transformed)
          else ret transformed
      | None => ret transformed
      end
  end.

(** The body of the second loop of [transform_row]. *)
Definition apply_mapping_step (row : Row) (transformed : Row) (mapping : FieldMapping)
  : M Row :=
  output_field <- item "output_field" (fm_output_field mapping);;
  v <- apply_field_mapping row mapping;;
  ret (<[output_field := v]> transformed).

(** [output_columns + additional_fields], the three lines that
    [transform_row] and [convert_data] both have. *)
Definition all_output_fields : M (list string) :=
  columns <- item "columns" (sch_columns (output_schema self));;
  output_columns <- mapM (fun col => item "name" (col_name col)) columns;;
  let additional_fields :=
    match sch_additional_fields (output_schema self) with
    | Some af => default [] (af_fields af)
    | None => []
    end in
  ret (output_columns ++ additional_fields).

(** The body of the last loop of [transform_row]. *)
Definition fill_default (transformed : Row) (field : string) : Row :=
  match transformed !! field with
  | Some _ => transformed
  | None => <[field := VStr ""]> transformed
  end.

(** [transformed] as the two loops over rules and mappings leave it. *)
Definition populate_row (row : Row) : M Row :=
  rules <- item "transformation_rules" (transformation_rules (processing_rules self));;
  transformed <- foldM (apply_rule_step row) rules ∅;;
  mappings <- item "field_mappings" (field_mappings (processing_rules self));;
  foldM (apply_mapping_step row) mappings transformed.

Definition transform_row (row : Row) : M Row :=
  transformed <- populate_row row;;
  fields <- all_output_fields;;
  ret (foldl fill_default transformed fields).

(** *** Conversion orchestrator *)

(** What [convert_data] is called with: a path, a frame, or anything
    else. *)
Inductive input_data :=
| InputPath (path : string)
| InputFrame (df : DataFrame)
| InputOther.

(** The loop over [input_df.iterrows()], from index [idx] on; [rows] are
    the rows as [iterrows()] yields them. *)
Fixpoint transform_rows (rows : list Row) (idx : Z) : M (list Row) :=
  match rows with
  | [] => ret []
  | row :: rows' =>
      this <- try_except
                (transformed_row <- transform_row row;; ret [transformed_row])
                (fun e => log ERROR (MsgErrorTransforming idx e);;; ret []);;
      rest <- transform_rows rows' (idx + 1);;
      ret (this ++ rest)
  end.

Definition convert_data (input : input_data) : M DataFrame :=
  input_df <-
    match input with
    | InputPath path =>
        if PyStr.endswith path ".dat" then read_dat_file path
        else if PyStr.endswith path ".csv" then lift (read_csv path)
        else raise (ValueError "Unsupported file format")
    | InputFrame df => ret df
    | InputOther => raise (ValueError "Input data must be DataFrame or file path")
    end;;
  log INFO (MsgConverting (Z.of_nat (length (df_rows input_df)))
                          (processing_name (processing_rules self)));;;
  valid <- validate_input_data input_df;;
  if negb valid then raise (ValueError "Input data validation failed")
  else
    transformed_rows <- transform_rows (df_rows input_df) 0;;
    all_columns <- all_output_fields;;
    let output_df := DataFrame_with_columns transformed_rows all_columns in
    log INFO (MsgConverted (Z.of_nat (length (df_rows output_df))));;;
    ret output_df.

End Converter.

(** * Properties *)

(** ** The monad *)

Section MonadFacts.

Context {A B : Type}.

Lemma outcome_ret (a : A) : outcome (ret a) = Ok a.
Proof. reflexivity. Qed.

Lemma outcome_raise (e : exn) : outcome (@raise A e) = Raise e.
Proof. reflexivity. Qed.

Lemma outcome_lift (r : result A) : outcome (lift r) = r.
Proof. reflexivity. Qed.

Lemma outcome_bind (m : M A) (k : A -> M B) :
  outcome (bind m k) =
  match outcome m with
  | Ok a => outcome (k a)
  | Raise e => Raise e
  end.
Proof.
  destruct m as [l [a|e]]; simpl; [|reflexivity].
  destruct (k a) as [l' r]; reflexivity.
Qed.

Lemma outcome_try_except (m : M A) (h : exn -> M A) :
  outcome (try_except m h) =
  match outcome m with
  | Ok a => Ok a
  | Raise e => outcome (h e)
  end.
Proof.
  destruct m as [l [a|e]]; simpl; [reflexivity|].
  destruct (h e) as [l' r]; reflexivity.
Qed.

Lemma outcome_item_Some (key : string) (a : A) : outcome (item key (Some a)) = Ok a.
Proof. reflexivity. Qed.

Lemma outcome_item_None (key : string) : outcome (@item A key None) = Raise (KeyError key).
Proof. reflexivity. Qed.

End MonadFacts.

Lemma outcome_log lv msg : outcome (log lv msg) = Ok tt.
Proof. reflexivity. Qed.

Lemma outcome_log_then {A} lv msg (m : M A) : outcome (log lv msg ;;; m) = outcome m.
Proof. rewrite outcome_bind. reflexivity. Qed.

Lemma outcome_when_then {A} c (w : M unit) (m : M A) :
  (forall e, outcome w <> Raise e) -> outcome (when c w ;;; m) = outcome m.
Proof.
  intros Hw. rewrite outcome_bind. destruct c; simpl; [|reflexivity].
  destruct (outcome w) as [[]|e] eqn:E; [reflexivity|]. exfalso. exact (Hw e eq_refl).
Qed.

Lemma outcome_when_log_then {A} c lv msg (m : M A) :
  outcome (when c (log lv msg) ;;; m) = outcome m.
Proof. apply outcome_when_then. intros e. discriminate. Qed.

(** What a loop that raises at one of its elements does: it raises. *)
Lemma foldM_raises {A B} (f : A -> B -> M A) (l : list B) (b : B) :
  b ∈ l ->
  (forall a, exists e, outcome (f a b) = Raise e) ->
  forall a, exists e, outcome (foldM f l a) = Raise e.
Proof.
  intros Hin Hb. induction l as [|b' l IH]; intros a.
  - inversion Hin.
  - simpl. rewrite outcome_bind.
    apply elem_of_cons in Hin as [<-|Hin].
    + destruct (Hb a) as [e He]. rewrite He. eauto.
    + destruct (outcome (f a b')) as [a'|e]; [|eauto].
      apply IH. assumption.
Qed.

(** One step through a computation: the outcome of a [bind], of a
    lookup that succeeds, of a logging call. *)
Ltac monad_step :=
  first [ rewrite outcome_bind
        | rewrite outcome_item_Some
        | rewrite outcome_item_None
        | rewrite outcome_lift
        | rewrite outcome_log
        | rewrite outcome_ret
        | rewrite outcome_raise ];
  cbv beta iota.

Ltac monad_simpl := repeat monad_step.

(** ** Substring test *)

Lemma prefix_spec (p s : string) :
  String.prefix p s = true <-> exists post, s = p +:+ post.
Proof.
  revert s. induction p as [|a p IH]; intros s.
  - split; [intros _; exists s; reflexivity | intros _; destruct s; reflexivity].
  - destruct s as [|b s]; simpl.
    + split; [discriminate | intros [post H]; discriminate].
    + destruct (ascii_dec a b) as [->|Hne].
      * rewrite IH. split; intros [post H]; exists post; simpl in *;
          [rewrite H; reflexivity | injection H; auto].
      * split; [discriminate|].
        intros [post H]. simpl in H. injection H as H1 H2. congruence.
Qed.

(** [contains needle hay] holds exactly when [needle] occurs in [hay]. *)
Lemma contains_spec (needle hay : string) :
  PyStr.contains needle hay = true <->
  exists pre post, hay = pre +:+ needle +:+ post.
Proof.
  induction hay as [|c hay IH].
  - change (PyStr.contains needle "") with (String.prefix needle "" || false).
    rewrite orb_false_r, prefix_spec. split.
    + intros [post H]. exists "", post. exact H.
    + intros (pre & post & H). destruct pre as [|a pre]; [|discriminate].
      exists post. exact H.
  - change (PyStr.contains needle (String c hay))
      with (String.prefix needle (String c hay) || PyStr.contains needle hay).
    rewrite orb_true_iff, prefix_spec, IH. split.
    + intros [[post H]|(pre & post & H)].
      * exists "", post. exact H.
      * exists (String c pre), post. rewrite H. reflexivity.
    + intros (pre & post & H). destruct pre as [|a pre].
      * left. exists post. exact H.
      * right. exists pre, post. simpl in H. injection H as H1 H2. exact H2.
Qed.

(** ** Condition evaluator *)

Lemma evaluate_condition_of_body fos row cond :
  outcome (evaluate_condition fos row cond) =
  match outcome (evaluate_condition_body fos row cond) with
  | Ok b => Ok b
  | Raise _ => Ok false
  end.
Proof.
  unfold evaluate_condition. rewrite outcome_try_except.
  destruct (outcome (evaluate_condition_body fos row cond)); reflexivity.
Qed.

Lemma evaluate_condition_never_raises fos row cond :
  exists b, outcome (evaluate_condition fos row cond) = Ok b.
Proof.
  rewrite evaluate_condition_of_body.
  destruct (outcome (evaluate_condition_body fos row cond)); eauto.
Qed.

(** A row on which the [try] block itself raises: [float] of an [int]
    beyond the range of binary64. *)
Definition huge_face_value_row : Row := {[ "FACE_VALUE" := VInt (2 ^ 1024) ]}.

Lemma evaluate_condition_body_can_raise fos cond :
  outcome (evaluate_condition_body fos huge_face_value_row cond) = Raise OverflowError.
Proof. unfold evaluate_condition_body. rewrite outcome_bind. vm_compute. reflexivity. Qed.

(** C8. The condition evaluator is total and defaults to false: it
    returns a boolean on every row and condition string and never raises;
    a condition string that contains none of the ten pattern texts
    evaluates to false; and when the body of its [try] raises, the
    exception is caught, a warning is logged and the result is false. *)
Theorem evaluate_condition_total_default_false
    (float_of_str : string -> option float) (row : Row) (condition : string) :
  (exists b, outcome (evaluate_condition float_of_str row condition) = Ok b)
  /\ ((forall p, p ∈ condition_patterns -> PyStr.contains p condition = false) ->
      outcome (evaluate_condition float_of_str row condition) = Ok false)
  /\ (forall e,
        outcome (evaluate_condition_body float_of_str row condition) = Raise e ->
        evaluate_condition float_of_str row condition
        = (logged (evaluate_condition_body float_of_str row condition)
             ++ [(WARNING, MsgErrorEvaluating condition e)],
           Ok false)).
Proof.
  split; [apply evaluate_condition_never_raises|]. split.
  - intros Hno. rewrite evaluate_condition_of_body.
    unfold evaluate_condition_body. rewrite outcome_bind, outcome_lift.
    destruct (safe_float_conversion _ _) as [fv|e]; [|reflexivity].
    assert (Hp : forall p, In p condition_patterns -> PyStr.contains p condition = false).
    { intros p Hp. apply Hno, list_elem_of_In, Hp. }
    unfold condition_patterns in Hp. simpl in Hp.
    repeat (rewrite Hp by tauto). reflexivity.
  - intros e He. unfold evaluate_condition, try_except.
    destruct (evaluate_condition_body float_of_str row condition) as [l r] eqn:E.
    simpl in He. subst r. reflexivity.
Qed.

Lemma evaluate_condition_total_default_false_witness :
  outcome (evaluate_condition (fun _ => None) huge_face_value_row "FACE_VALUE > 10")
  = Ok false
  /\ evaluate_condition (fun _ => None) huge_face_value_row "FACE_VALUE > 10"
     = ([(WARNING, MsgErrorEvaluating "FACE_VALUE > 10" OverflowError)], Ok false).
Proof.
  pose proof (evaluate_condition_total_default_false
                (fun _ => None) huge_face_value_row "FACE_VALUE > 10") as (_ & H2 & H3).
  split.
  - apply H2. intros p Hp.
    repeat (apply elem_of_cons in Hp as [->|Hp]; [vm_compute; reflexivity|]).
    inversion Hp.
  - rewrite (H3 OverflowError); [reflexivity|].
    apply evaluate_condition_body_can_raise.
Defined.

(** ** Rule handlers *)

Definition result_map {A B} (f : A -> B) (r : result A) : result B :=
  match r with
  | Ok a => Ok (f a)
  | Raise e => Raise e
  end.





(** [find] returns the first element, in list order, that satisfies the
    predicate. *)
Lemma find_first {A} (p : A -> bool) (l : list A) (x : A) :
  find p l = Some x <->
  exists pre post, l = pre ++ x :: post /\ p x = true /\ Forall (fun y => p y = false) pre.
Proof.
  induction l as [|a l IH]; simpl.
  - split; [discriminate|]. intros (pre & post & H & _). destruct pre; discriminate.
  - destruct (p a) eqn:Ea.
    + split.
      * intros [= ->]. exists [], l. auto.
      * intros (pre & post & H & Hx & Hpre). destruct pre as [|b pre].
        -- simpl in H. congruence.
        -- simpl in H. injection H as -> ->. inversion Hpre; congruence.
    + rewrite IH. split.
      * intros (pre & post & -> & Hx & Hpre). exists (a :: pre), post. auto.
      * intros (pre & post & H & Hx & Hpre). destruct pre as [|b pre].
        -- simpl in H. congruence.
        -- simpl in H. injection H as -> ->. exists pre, post.
           inversion Hpre; auto.
Qed.




Definition drorcr_logic : Logic :=
  {| lg_conditions :=
       Some [ {| cond_condition := Some "CONTRACT_STATUS == 'Y' AND FACE_VALUE >= 0";
                 cond_action := None; cond_value := Some (VStr "D");
                 cond_source_field := None |};
              {| cond_condition := Some "CONTRACT_STATUS == 'Y' AND FACE_VALUE < 0";
                 cond_action := None; cond_value := Some (VStr "C");
                 cond_source_field := None |} ];
     lg_default_action := Some [("action", VStr "SIGN_OF_FACE_VALUE")] |}.

Definition drorcr_rule : TransformationRule :=
  {| rule_id := Some "DRORCR_CALCULATION";
     rule_output_field := Some "DRORCR";
     rule_logic := Some drorcr_logic |}.

Definition drorcr_row (status : string) (face_value : Z) : Row :=
  {[ "CONTRACT_STATUS" := VStr status; "FACE_VALUE" := VInt face_value ]}.




(** With an empty default action, as with none, the sign of
    [FACE_VALUE] is not looked at. *)
Example drorcr_with_empty_default_action :
  let rule := {| rule_id := Some "DRORCR_CALCULATION"; rule_output_field := Some "DRORCR";
                 rule_logic := Some {| lg_conditions := lg_conditions drorcr_logic;
                                       lg_default_action := Some [] |} |} in
  outcome (calculate_drorcr_from_config (fun _ => None) (drorcr_row "X" 0) rule)
  = Ok (VStr "C")
  /\ outcome (calculate_drorcr_from_config (fun _ => None) (drorcr_row "X" (-1)) rule)
     = Ok (VStr "C").
Proof. split; vm_compute; reflexivity. Qed.

(** *** LEAF_GL *)

Lemma append_assoc (a b c : string) : (a +:+ b) +:+ c = a +:+ (b +:+ c).
Proof.
  induction a as [|x a IH]; [reflexivity|].
  change (String x ((a +:+ b) +:+ c) = String x (a +:+ (b +:+ c))).
  rewrite IH. reflexivity.
Qed.

(** An action tag that contains [NO] followed by a tag contains the tag. *)
Lemma contains_after_NO (tag action : string) :
  PyStr.contains ("NO" +:+ tag) action = true -> PyStr.contains tag action = true.
Proof.
  rewrite !contains_spec. intros (pre & post & ->).
  exists (pre +:+ "NO"), post. rewrite !append_assoc. reflexivity.
Qed.

(** A matching condition that carries an action tag: only the first two
    branches of the chain can be taken, since a tag that contains
    [NOJPY_D_G] or [NOJPY_OTHER] also contains [JPY_D_G] or [JPY_OTHER]. *)
Lemma leaf_gl_loop_step fos sof row leaf_gl c text action conditions :
  cond_condition c = Some text ->
  outcome (evaluate_condition fos row text) = Ok true ->
  cond_action c = Some action ->
  outcome (leaf_gl_loop fos sof row leaf_gl (c :: conditions)) =
  if PyStr.contains "JPY_D_G" action then Ok (VStr (py_str sof leaf_gl +:+ "_JPY_D_G"))
  else if PyStr.contains "JPY_OTHER" action then Ok (VStr (py_str sof leaf_gl +:+ "_JPY_OTHER"))
  else outcome (leaf_gl_loop fos sof row leaf_gl conditions).
Proof.
  intros Ht Hb Ha. simpl. rewrite Ht, Ha. monad_simpl. rewrite Hb. monad_simpl.
  destruct (PyStr.contains "JPY_D_G" action) eqn:E1; [reflexivity|].
  destruct (PyStr.contains "JPY_OTHER" action) eqn:E2; [reflexivity|].
  destruct (PyStr.contains "NOJPY_D_G" action) eqn:E3.
  { apply (contains_after_NO "JPY_D_G") in E3. congruence. }
  destruct (PyStr.contains "NOJPY_OTHER" action) eqn:E4.
  { apply (contains_after_NO "JPY_OTHER") in E4. congruence. }
  reflexivity.
Qed.

Definition leaf_gl_rule (action : string) : TransformationRule :=
  {| rule_id := Some "LEAF_GL_CALCULATION";
     rule_output_field := Some "LEAF_GL";
     rule_logic :=
       Some {| lg_conditions :=
                 Some [ {| cond_condition :=
                             Some "CURRENCY_Cosmos == 'JPY' AND PRODUCT_TYPE IN ['D', 'G']";
                           cond_action := Some "JPY_D_G";
                           cond_value := None; cond_source_field := None |};
                        {| cond_condition :=
                             Some "CURRENCY_Cosmos != 'JPY' AND PRODUCT_TYPE IN ['D', 'G']";
                           cond_action := Some action;
                           cond_value := None; cond_source_field := None |};
                        {| cond_condition :=
                             Some "CURRENCY_Cosmos != 'JPY' AND PRODUCT_TYPE NOT IN ['D', 'G']";
                           cond_action := Some "NOJPY_OTHER";
                           cond_value := None; cond_source_field := None |} ];
               lg_default_action := None |} |}.

Definition leaf_gl_row (currency product_type leaf_gl : string) : Row :=
  {[ "CURRENCY_Cosmos" := VStr currency; "PRODUCT_TYPE" := VStr product_type;
     "LEAF_GL" := VStr leaf_gl ]}.

(** C2. LEAF_GL_CALCULATION at three rows.  A JPY row of product type D
    gets [_JPY_D_G], as the specification's scenario says.  A USD row of
    product type D, whose first matching condition carries the action
    tag [NOJPY_D_G], gets [_JPY_D_G] and not [_NOJPY_D_G]; a GBP row of
    product type L, whose matching condition carries [NOJPY_OTHER], gets
    [_JPY_OTHER] and not [_NOJPY_OTHER]: the tag [JPY_D_G] is tested
    first and occurs inside [NOJPY_D_G]. *)
Theorem calculate_leaf_gl_nojpy_tags_take_jpy_suffix
    (float_of_str : string -> option float) (str_of_float : float -> string) :
  outcome (calculate_leaf_gl_from_config float_of_str str_of_float
             (leaf_gl_row "JPY" "D" "LEAF001") (leaf_gl_rule "NOJPY_D_G"))
  = Ok (VStr "LEAF001_JPY_D_G")
  /\ outcome (calculate_leaf_gl_from_config float_of_str str_of_float
                (leaf_gl_row "USD" "D" "LEAF002") (leaf_gl_rule "NOJPY_D_G"))
     = Ok (VStr "LEAF002_JPY_D_G")
  /\ outcome (calculate_leaf_gl_from_config float_of_str str_of_float
                (leaf_gl_row "GBP" "L" "LEAF003") (leaf_gl_rule "NOJPY_D_G"))
     = Ok (VStr "LEAF003_JPY_OTHER").
Proof. split; [|split]; vm_compute; reflexivity. Qed.

(** ** Validator *)

(** The names of the schema columns marked required. *)
Definition required_column_names (columns : list Column) : list string :=
  omap (fun col => if default false (col_required col) then col_name col else None) columns.

Lemma required_names_spec (columns : list Column) :
  Forall (fun col => is_Some (col_name col)) columns ->
  outcome (required_names columns) = Ok (required_column_names columns).
Proof.
  induction 1 as [|col l [name Hn] Hl IH]; [reflexivity|].
  simpl. unfold required_column_names. simpl.
  destruct (default false (col_required col)).
  - rewrite Hn. monad_simpl. rewrite IH. monad_simpl. reflexivity.
  - exact IH.
Qed.

(** A named rule carries the keys its kind reads. *)
Definition rule_well_formed (rule : ValidationRule) : Prop :=
  match vr_rule_type rule with
  | Some rule_type =>
      if String.eqb rule_type "required_fields" then is_Some (vr_fields rule)
      else if String.eqb rule_type "currency_validation"
              || String.eqb rule_type "product_type_validation"
      then is_Some (vr_field rule) /\ is_Some (vr_valid_values rule)
      else True
  | None => False
  end.

(** A [required_fields] rule that lists a field the table lacks. *)
Definition required_fields_missing (df : DataFrame) (rule : ValidationRule) : bool :=
  match vr_rule_type rule, vr_fields rule with
  | Some rule_type, Some fields =>
      String.eqb rule_type "required_fields"
      && negb (is_empty_set (missing_from fields df))
  | _, _ => false
  end.

Lemma apply_validation_rule_outcome (df : DataFrame) (rule : ValidationRule) :
  rule_well_formed rule ->
  outcome (apply_validation_rule df rule) = Ok (negb (required_fields_missing df rule)).
Proof.
  unfold rule_well_formed, apply_validation_rule, required_fields_missing.
  destruct (vr_rule_type rule) as [rule_type|]; [|contradiction].
  monad_simpl.
  destruct (String.eqb rule_type "required_fields") eqn:E1.
  - intros [fields ->]. monad_simpl.
    destruct (is_empty_set (missing_from fields df)); cbn [negb andb]; [reflexivity|].
    rewrite outcome_log_then. reflexivity.
  - destruct (String.eqb rule_type "currency_validation") eqn:E2; cbn [orb].
    + intros [[field ->] [valid ->]]. monad_simpl.
      destruct (vr_fields rule); unfold when;
        destruct (has_column df field); try destruct (bool_decide _); reflexivity.
    + destruct (String.eqb rule_type "product_type_validation") eqn:E3.
      * intros [[field ->] [valid ->]]. monad_simpl.
        destruct (vr_fields rule); unfold when;
          destruct (has_column df field); try destruct (bool_decide _); reflexivity.
      * intros _. destruct (vr_fields rule); reflexivity.
Qed.

Lemma validate_rules_outcome (df : DataFrame) (rules : list ValidationRule) :
  Forall rule_well_formed rules ->
  outcome (validate_rules df rules)
  = Ok (forallb (fun rule => negb (required_fields_missing df rule)) rules).
Proof.
  induction 1 as [|rule rules Hr Hrs IH]; cbn [validate_rules forallb].
  - rewrite outcome_log_then. reflexivity.
  - monad_simpl. rewrite (apply_validation_rule_outcome _ _ Hr). cbv beta iota.
    destruct (negb (required_fields_missing df rule)); cbn [negb andb]; [exact IH|reflexivity].
Qed.

(** C1, as the code has it.  On a schema whose columns are named and
    whose named rules carry their keys, validation passes exactly when
    every required schema column is in the table and no [required_fields]
    rule lists a field the table lacks; [currency_validation] and
    [product_type_validation] never change the outcome. *)
Theorem validate_input_data_outcome
    (self : ConfigDrivenETLConverter) (df : DataFrame) (columns : list Column) :
  sch_columns (input_schema self) = Some columns ->
  Forall (fun col => is_Some (col_name col)) columns ->
  Forall rule_well_formed (default [] (sch_validation_rules (input_schema self))) ->
  outcome (validate_input_data self df)
  = Ok (is_empty_set (missing_from (required_column_names columns) df)
        && forallb (fun rule => negb (required_fields_missing df rule))
                   (default [] (sch_validation_rules (input_schema self)))).
Proof.
  intros Hc Hn Hr. unfold validate_input_data.
  rewrite outcome_log_then, Hc. monad_simpl.
  rewrite (required_names_spec _ Hn). cbv beta iota.
  destruct (is_empty_set _); cbn [negb andb].
  - apply validate_rules_outcome, Hr.
  - rewrite outcome_log_then. reflexivity.
Qed.

Definition empty_processing_rules : ProcessingRules :=
  {| processing_name := "FLEX PP Balance Conversion";
     transformation_rules := Some [];
     field_mappings := Some [] |}.

Definition empty_schema : Schema :=
  {| sch_columns := Some []; sch_validation_rules := None;
     sch_additional_fields := None |}.

(** One required column, which the table has, and a [required_fields]
    rule that also lists [FACE_VALUE], which the table lacks. *)
Definition required_fields_converter : ConfigDrivenETLConverter :=
  {| input_schema :=
       {| sch_columns :=
            Some [ {| col_name := Some "CURRENCY_Cosmos"; col_length := Some 3;
                      col_data_type := Some "string"; col_required := Some true |} ];
          sch_validation_rules :=
            Some [ {| vr_rule_type := Some "required_fields";
                      vr_fields := Some ["CURRENCY_Cosmos"; "FACE_VALUE"];
                      vr_field := None; vr_valid_values := None |} ];
          sch_additional_fields := None |};
     output_schema := empty_schema;
     processing_rules := empty_processing_rules |}.

Definition currency_only_frame : DataFrame :=
  {| df_columns := ["CURRENCY_Cosmos"];
     df_rows := [ {[ "CURRENCY_Cosmos" := VStr "JPY" ]} ] |}.

(** C1 fails as stated: every required schema column is present, a field
    of the [required_fields] rule is absent, and validation fails. *)
Lemma required_fields_rule_fails_validation :
  missing_from (required_column_names
                  (default [] (sch_columns (input_schema required_fields_converter))))
               currency_only_frame = ∅
  /\ validate_input_data required_fields_converter currency_only_frame
     = ([(INFO, MsgValidating); (ERROR, MsgMissingFields {[ "FACE_VALUE" ]})], Ok false).
Proof. split; vm_compute; reflexivity. Qed.

Lemma validate_input_data_outcome_witness :
  outcome (validate_input_data required_fields_converter currency_only_frame) = Ok false
  /\ outcome (validate_input_data required_fields_converter
                {| df_columns := ["CURRENCY_Cosmos"; "FACE_VALUE"]; df_rows := [] |})
     = Ok true.
Proof.
  assert (Hn : Forall (fun col => is_Some (col_name col))
                 (default [] (sch_columns (input_schema required_fields_converter)))).
  { repeat (constructor; [eexists; reflexivity|]). constructor. }
  assert (Hr : Forall rule_well_formed
                 (default [] (sch_validation_rules (input_schema required_fields_converter)))).
  { repeat (constructor; [eexists; reflexivity|]). constructor. }
  split.
  - rewrite (validate_input_data_outcome required_fields_converter _ _ eq_refl Hn Hr).
    vm_compute. reflexivity.
  - rewrite (validate_input_data_outcome required_fields_converter _ _ eq_refl Hn Hr).
    vm_compute. reflexivity.
Defined.

(** ** Row transformer *)

Lemma fill_default_lookup (t : gmap string value) (field k : string) :
  fill_default t field !! k
  = match t !! k with
    | Some v => Some v
    | None => if decide (field = k) then Some (VStr "") else None
    end.
Proof.
  unfold fill_default. destruct (t !! field) as [w|] eqn:E.
  - destruct (t !! k) eqn:Ek; [reflexivity|].
    destruct (decide (field = k)) as [->|]; [congruence|reflexivity].
  - rewrite lookup_insert. destruct (decide (field = k)) as [->|].
    + rewrite E. reflexivity.
    + destruct (t !! k); reflexivity.
Qed.

Lemma fill_defaults_lookup (fields : list string) (t : gmap string value) (k : string) :
  foldl fill_default t fields !! k
  = match t !! k with
    | Some v => Some v
    | None => if decide (k ∈ fields) then Some (VStr "") else None
    end.
Proof.
  revert t. induction fields as [|f fields IH]; intros t; simpl.
  - destruct (t !! k); [reflexivity|].
    destruct (decide (k ∈ [])) as [H|]; [inversion H|reflexivity].
  - rewrite IH, fill_default_lookup. destruct (t !! k); [reflexivity|].
    destruct (decide (f = k)) as [->|Hne].
    + rewrite decide_True by (left). reflexivity.
    + destruct (decide (k ∈ fields)) as [Hin|Hnin].
      * rewrite decide_True by (right; exact Hin). reflexivity.
      * rewrite decide_False; [reflexivity|].
        intros [->|H]%elem_of_cons; [congruence|contradiction].
Qed.

Lemma fill_defaults_dom (fields : list string) (t : gmap string value) :
  dom (foldl fill_default t fields) = dom t ∪ list_to_set fields.
Proof.
  apply set_eq. intros k.
  rewrite elem_of_union, !elem_of_dom, elem_of_list_to_set, fill_defaults_lookup.
  destruct (t !! k) as [v|].
  - split; [left|]; eauto.
  - destruct (decide (k ∈ fields)) as [Hin|Hnin].
    + split; [right; exact Hin|eauto].
    + split; [intros [? ?]; discriminate|].
      intros [[? ?]|?]; [discriminate|contradiction].
Qed.

Lemma reindex_dom (cols : list string) (r : Row) : dom (reindex cols r) = list_to_set cols.
Proof.
  unfold reindex. rewrite dom_list_to_map_L, <- list_fmap_compose.
  f_equal. induction cols as [|c cols IH]; [reflexivity|].
  simpl. f_equal. exact IH.
Qed.

(** The rows of a frame built with [columns=cols] carry exactly [cols]. *)
Lemma DataFrame_with_columns_dom (records : list Row) (cols : list string) :
  Forall (fun r : Row => dom r = list_to_set cols)
         (df_rows (DataFrame_with_columns records cols)).
Proof.
  unfold DataFrame_with_columns. simpl.
  induction records as [|r records IH]; constructor; [apply reindex_dom|exact IH].
Qed.

(** The transformed rows that [convert_data] collects: those of the rows
    on which [transform_row] returns, in the order of the input. *)
Definition transformed_rows (float_of_str : string -> option float)
    (str_of_float : float -> string) (self : ConfigDrivenETLConverter)
    (rows : list Row) : list Row :=
  omap (fun row =>
          match outcome (transform_row float_of_str str_of_float self row) with
          | Ok transformed => Some transformed
          | Raise _ => None
          end) rows.

Lemma transform_rows_outcome fos sof self rows idx :
  outcome (transform_rows fos sof self rows idx) = Ok (transformed_rows fos sof self rows).
Proof.
  revert idx. induction rows as [|row rows IH]; intros idx; [reflexivity|].
  cbn [transform_rows]. rewrite outcome_bind, outcome_try_except, outcome_bind.
  unfold transformed_rows. cbn [omap list_omap].
  destruct (outcome (transform_row fos sof self row)) as [t|e].
  - cbv beta iota. monad_simpl. rewrite IH. monad_simpl. reflexivity.
  - cbv beta iota. rewrite outcome_log_then. monad_simpl. rewrite IH. monad_simpl.
    reflexivity.
Qed.

(** C3, as the code has it.  When [transform_row] returns, its keys are
    the fields that the rules and mappings populated together with the
    output schema's columns and the additional fields; a populated field
    keeps its value, every other output field is bound to the empty
    string, and the mapping has exactly the output fields when every
    populated field is one of them.  Whenever [convert_data] returns a
    table, its columns are the output fields and every row of it carries
    exactly the output fields. *)
Theorem transform_row_keys
    (float_of_str : string -> option float) (str_of_float : float -> string)
    (self : ConfigDrivenETLConverter) (row : Row) :
  (forall transformed : Row,
      outcome (transform_row float_of_str str_of_float self row) = Ok transformed ->
      exists (populated : Row) (fields : list string),
        outcome (populate_row float_of_str str_of_float self row) = Ok populated
        /\ outcome (all_output_fields self) = Ok fields
        /\ dom transformed = dom populated ∪ list_to_set fields
        /\ (forall k v, populated !! k = Some v -> transformed !! k = Some v)
        /\ (forall k, k ∈ fields -> populated !! k = None ->
                      transformed !! k = Some (VStr ""))
        /\ (dom populated ⊆ list_to_set fields ->
            dom transformed = list_to_set fields))
  /\ (forall (readlines : string -> result (list string))
             (read_csv : string -> result DataFrame)
             (input : input_data) (out : DataFrame),
        outcome (convert_data float_of_str str_of_float self readlines read_csv input)
        = Ok out ->
        outcome (all_output_fields self) = Ok (df_columns out)
        /\ Forall (fun r : Row => dom r = list_to_set (df_columns out)) (df_rows out)).
Proof.
  split.
  2:{ intros readlines read_csv input out. unfold convert_data. rewrite outcome_bind.
      match goal with
      | |- match ?o with _ => _ end = _ -> _ => destruct o as [input_df|]
      end; [|discriminate].
      rewrite outcome_bind, outcome_log. cbv beta iota. rewrite outcome_bind.
      destruct (outcome (validate_input_data self input_df)) as [valid|]; [|discriminate].
      destruct valid; cbn [negb]; [|discriminate].
      rewrite outcome_bind, transform_rows_outcome. cbv beta iota.
      rewrite outcome_bind.
      destruct (outcome (all_output_fields self)) as [fields|]; [|discriminate].
      rewrite outcome_bind, outcome_log. cbv beta iota. rewrite outcome_ret.
      intros [= <-]. split; [reflexivity|]. apply DataFrame_with_columns_dom. }
  intros transformed. unfold transform_row. rewrite outcome_bind.
  destruct (outcome (populate_row float_of_str str_of_float self row))
    as [populated|] eqn:Ep; [|discriminate].
  rewrite outcome_bind.
  destruct (outcome (all_output_fields self)) as [fields|] eqn:Ef; [|discriminate].
  rewrite outcome_ret. intros [= <-]. exists populated, fields.
  split; [reflexivity|]. split; [reflexivity|].
  split; [apply fill_defaults_dom|]. split; [|split].
  - intros k v Hk. rewrite fill_defaults_lookup, Hk. reflexivity.
  - intros k Hin Hk. rewrite fill_defaults_lookup, Hk, decide_True by exact Hin.
    reflexivity.
  - intros Hsub. rewrite fill_defaults_dom. apply subseteq_union_1_L, Hsub.
Qed.

(** An output schema of two fields and a mapping to a third one. *)
Definition extra_field_converter : ConfigDrivenETLConverter :=
  {| input_schema := empty_schema;
     output_schema :=
       {| sch_columns :=
            Some [ {| col_name := Some "SIDE"; col_length := None;
                      col_data_type := None; col_required := None |} ];
          sch_validation_rules := None;
          sch_additional_fields := Some {| af_fields := Some ["AMOUNT"] |} |};
     processing_rules :=
       {| processing_name := "FLEX PP Balance Conversion";
          transformation_rules := Some [];
          field_mappings :=
            Some [ {| fm_output_field := Some "TERMID"; fm_input_field := Some "BRANCH";
                      fm_transformation := Some "DIRECT_COPY";
                      fm_default_value := None |} ] |} |}.

Definition branch_row : Row := {[ "BRANCH" := VStr "001" ]}.

(** C3 fails as stated: the mapping that [transform_row] returns has the
    key [TERMID], which is neither a column of the output schema nor an
    additional field. *)
Lemma transform_row_extra_key :
  outcome (transform_row (fun _ => None) (fun _ => "") extra_field_converter branch_row)
  = Ok {[ "TERMID" := VStr "001"; "SIDE" := VStr ""; "AMOUNT" := VStr "" ]}
  /\ outcome (all_output_fields extra_field_converter) = Ok ["SIDE"; "AMOUNT"]
  /\ bool_decide ("TERMID" ∈ ["SIDE"; "AMOUNT"]) = false.
Proof. split; [|split]; vm_compute; reflexivity. Qed.

Lemma transform_row_keys_witness :
  (exists transformed : Row,
      outcome (transform_row (fun _ => None) (fun _ => "") extra_field_converter branch_row)
      = Ok transformed
      /\ dom transformed = {[ "TERMID" ]} ∪ list_to_set ["SIDE"; "AMOUNT"]
      /\ transformed !! "SIDE" = Some (VStr ""))
  /\ (exists out : DataFrame,
         outcome (convert_data (fun _ => None) (fun _ => "") extra_field_converter
                    (fun _ => Ok []) (fun _ => Raise (OSError "no such file"))
                    (InputFrame {| df_columns := ["BRANCH"]; df_rows := [branch_row] |}))
         = Ok out
         /\ df_columns out = ["SIDE"; "AMOUNT"]
         /\ Forall (fun r : Row => dom r = list_to_set ["SIDE"; "AMOUNT"]) (df_rows out)
         /\ length (df_rows out) = 1%nat).
Proof.
  split.
  - destruct (outcome (transform_row (fun _ => None) (fun _ => "")
                         extra_field_converter branch_row)) as [t|e] eqn:E;
      [|vm_compute in E; discriminate].
    exists t. split; [reflexivity|].
    destruct (proj1 (transform_row_keys _ _ _ _) t E)
      as (populated & fields & Hp & Hf & Hdom & Hkeep & Hfill & _).
    vm_compute in Hp. injection Hp as <-.
    vm_compute in Hf. injection Hf as <-.
    split.
    + rewrite Hdom. reflexivity.
    + apply Hfill; [left|reflexivity].
  - destruct (outcome (convert_data (fun _ => None) (fun _ => "") extra_field_converter
                 (fun _ => Ok []) (fun _ => Raise (OSError "no such file"))
                 (InputFrame {| df_columns := ["BRANCH"]; df_rows := [branch_row] |})))
      as [out|e] eqn:E; [|vm_compute in E; discriminate].
    exists out. split; [reflexivity|].
    destruct (proj2 (transform_row_keys (fun _ => None) (fun _ => "")
                       extra_field_converter branch_row) _ _ _ out E) as [Hcols Hrows].
    assert (Hall : outcome (all_output_fields extra_field_converter)
                   = Ok ["SIDE"; "AMOUNT"]) by reflexivity.
    rewrite Hall in Hcols. injection Hcols as Hcols. rewrite <- Hcols in Hrows.
    split; [symmetry; exact Hcols|]. split; [exact Hrows|].
    vm_compute in E. injection E as <-. reflexivity.
Defined.

(** ** Conversion orchestrator *)

(** C9. On a table that passes validation, [convert_data] returns the
    table built, on the output fields, from the transformed rows of
    exactly those input rows on which [transform_row] did not raise, in
    the order of the input; a row on which it raised is left out and
    never ends the run (which raises only if the output schema does not
    give the output fields). *)
Theorem convert_data_drops_failing_rows
    (float_of_str : string -> option float) (str_of_float : float -> string)
    (self : ConfigDrivenETLConverter)
    (readlines : string -> result (list string)) (read_csv : string -> result DataFrame)
    (df : DataFrame) :
  outcome (validate_input_data self df) = Ok true ->
  outcome (convert_data float_of_str str_of_float self readlines read_csv (InputFrame df))
  = result_map
      (DataFrame_with_columns
         (transformed_rows float_of_str str_of_float self (df_rows df)))
      (outcome (all_output_fields self)).
Proof.
  intros Hv. unfold convert_data. monad_simpl.
  rewrite Hv. cbn [negb]. cbv beta iota. monad_simpl.
  rewrite transform_rows_outcome. cbv beta iota. monad_simpl.
  destruct (outcome (all_output_fields self)) as [fields|e]; [|reflexivity].
  cbv beta iota. monad_simpl. reflexivity.
Qed.

(** A DRORCR rule with a default action, an output schema of the one
    field it sets, and a table whose second row carries a [FACE_VALUE]
    that [float] cannot take. *)
Definition drorcr_converter : ConfigDrivenETLConverter :=
  {| input_schema := empty_schema;
     output_schema :=
       {| sch_columns :=
            Some [ {| col_name := Some "DRORCR"; col_length := None;
                      col_data_type := None; col_required := None |} ];
          sch_validation_rules := None;
          sch_additional_fields := None |};
     processing_rules :=
       {| processing_name := "FLEX PP Balance Conversion";
          transformation_rules := Some [drorcr_rule];
          field_mappings := Some [] |} |}.

Definition three_row_frame : DataFrame :=
  {| df_columns := ["CONTRACT_STATUS"; "FACE_VALUE"];
     df_rows := [drorcr_row "X" 5; drorcr_row "X" (2 ^ 1024); drorcr_row "X" (-3)] |}.

Lemma convert_data_drops_failing_rows_witness :
  outcome (convert_data (fun _ => None) (fun _ => "") drorcr_converter
             (fun _ => Ok []) (fun _ => Raise (OSError "no such file"))
             (InputFrame three_row_frame))
  = Ok {| df_columns := ["DRORCR"];
          df_rows := [ {[ "DRORCR" := VStr "C" ]}; {[ "DRORCR" := VStr "D" ]} ] |}.
Proof.
  rewrite (convert_data_drops_failing_rows _ _ drorcr_converter _ _ three_row_frame);
    vm_compute; reflexivity.
Defined.

(** The same run with its log: on the second row both conditions raise
    inside the evaluator, which reports and swallows them; the default
    action then raises outside it, the row is reported and left out, and
    the third row is still transformed. *)
Example convert_data_logs_failing_row :
  convert_data (fun _ => None) (fun _ => "") drorcr_converter
    (fun _ => Ok []) (fun _ => Raise (OSError "no such file"))
    (InputFrame three_row_frame)
  = ([ (INFO, MsgConverting 3 "FLEX PP Balance Conversion");
       (INFO, MsgValidating); (INFO, MsgValidationPassed);
       (WARNING, MsgErrorEvaluating "CONTRACT_STATUS == 'Y' AND FACE_VALUE >= 0"
                   OverflowError);
       (WARNING, MsgErrorEvaluating "CONTRACT_STATUS == 'Y' AND FACE_VALUE < 0"
                   OverflowError);
       (ERROR, MsgErrorTransforming 1 OverflowError);
       (INFO, MsgConverted 2) ],
     Ok {| df_columns := ["DRORCR"];
           df_rows := [ {[ "DRORCR" := VStr "C" ]}; {[ "DRORCR" := VStr "D" ]} ] |}).
Proof. vm_compute. reflexivity. Qed.

(** *** A DEFAULT_VALUE mapping without a default value *)

Lemma apply_field_mapping_without_default sof row mapping :
  fm_transformation mapping = Some "DEFAULT_VALUE" ->
  fm_default_value mapping = None ->
  outcome (apply_field_mapping sof row mapping)
  = Raise (KeyError match fm_input_field mapping with
                    | Some _ => "default_value"
                    | None => "input_field"
                    end).
Proof.
  intros Ht Hd. unfold apply_field_mapping. rewrite Ht. monad_simpl.
  destruct (fm_input_field mapping); monad_simpl; [|reflexivity].
  rewrite Hd. reflexivity.
Qed.

Lemma apply_mapping_step_without_default sof row transformed mapping :
  fm_transformation mapping = Some "DEFAULT_VALUE" ->
  fm_default_value mapping = None ->
  exists e, outcome (apply_mapping_step sof row transformed mapping) = Raise e.
Proof.
  intros Ht Hd. unfold apply_mapping_step. monad_simpl.
  destruct (fm_output_field mapping); monad_simpl; [|eauto].
  rewrite (apply_field_mapping_without_default _ _ _ Ht Hd). eauto.
Qed.

Lemma transformed_rows_all_raise fos sof self rows :
  (forall row, exists e, outcome (transform_row fos sof self row) = Raise e) ->
  transformed_rows fos sof self rows = [].
Proof.
  intros Hall. unfold transformed_rows.
  induction rows as [|row rows IH]; [reflexivity|].
  cbn [omap list_omap]. destruct (Hall row) as [e ->]. exact IH.
Qed.

(** C10. A field mapping of kind DEFAULT_VALUE that has no
    [default_value] entry raises a lookup error when it is applied (on
    [default_value] itself whenever the mapping has its [input_field]);
    [transform_row] therefore raises on every row, and on a table that
    passes validation [convert_data] returns a table without rows. *)
Theorem default_value_mapping_without_default_drops_rows
    (float_of_str : string -> option float) (str_of_float : float -> string)
    (self : ConfigDrivenETLConverter)
    (readlines : string -> result (list string)) (read_csv : string -> result DataFrame)
    (mappings : list FieldMapping) (mapping : FieldMapping) :
  field_mappings (processing_rules self) = Some mappings ->
  mapping ∈ mappings ->
  fm_transformation mapping = Some "DEFAULT_VALUE" ->
  fm_default_value mapping = None ->
  (forall row, exists key,
      outcome (apply_field_mapping str_of_float row mapping) = Raise (KeyError key))
  /\ (forall row, is_Some (fm_input_field mapping) ->
        outcome (apply_field_mapping str_of_float row mapping)
        = Raise (KeyError "default_value"))
  /\ (forall row, exists e,
        outcome (transform_row float_of_str str_of_float self row) = Raise e)
  /\ (forall df,
        outcome (validate_input_data self df) = Ok true ->
        outcome (convert_data float_of_str str_of_float self readlines read_csv
                   (InputFrame df))
        = result_map (DataFrame_with_columns []) (outcome (all_output_fields self))).
Proof.
  intros Hm Hin Ht Hd.
  assert (Hrow : forall row, exists e,
             outcome (transform_row float_of_str str_of_float self row) = Raise e).
  { intros row. unfold transform_row, populate_row. rewrite Hm. monad_simpl.
    destruct (transformation_rules (processing_rules self)) as [rules|];
      monad_simpl; [|eauto].
    destruct (outcome (foldM _ rules ∅)) as [t|e]; [|eauto].
    cbv beta iota. monad_simpl.
    destruct (foldM_raises (apply_mapping_step str_of_float row) mappings mapping Hin
                (fun a => apply_mapping_step_without_default _ _ a _ Ht Hd) t)
      as [e ->].
    eauto. }
  split; [|split; [|split]].
  - intros row. rewrite (apply_field_mapping_without_default _ _ _ Ht Hd). eauto.
  - intros row [input_field Hi].
    rewrite (apply_field_mapping_without_default _ _ _ Ht Hd), Hi. reflexivity.
  - exact Hrow.
  - intros df Hv. unfold convert_data. monad_simpl.
    rewrite Hv. cbn [negb]. cbv beta iota. monad_simpl.
    rewrite transform_rows_outcome, (transformed_rows_all_raise _ _ _ _ Hrow).
    cbv beta iota. monad_simpl.
    destruct (outcome (all_output_fields self)) as [fields|e]; [|reflexivity].
    cbv beta iota. monad_simpl. reflexivity.
Qed.

Definition side_mapping : FieldMapping :=
  {| fm_output_field := Some "SIDE"; fm_input_field := Some "RECORD_TYPE";
     fm_transformation := Some "DEFAULT_VALUE"; fm_default_value := None |}.

Definition default_value_converter : ConfigDrivenETLConverter :=
  {| input_schema := empty_schema;
     output_schema :=
       {| sch_columns :=
            Some [ {| col_name := Some "SIDE"; col_length := None;
                      col_data_type := None; col_required := None |} ];
          sch_validation_rules := None;
          sch_additional_fields := None |};
     processing_rules :=
       {| processing_name := "FLEX PP Balance Conversion";
          transformation_rules := Some [];
          field_mappings := Some [side_mapping] |} |}.

Lemma default_value_mapping_without_default_drops_rows_witness :
  outcome (apply_field_mapping (fun _ => "") branch_row side_mapping)
  = Raise (KeyError "default_value")
  /\ outcome (convert_data (fun _ => None) (fun _ => "") default_value_converter
                (fun _ => Ok []) (fun _ => Raise (OSError "no such file"))
                (InputFrame three_row_frame))
     = Ok {| df_columns := ["SIDE"]; df_rows := [] |}.
Proof.
  destruct (default_value_mapping_without_default_drops_rows
              (fun _ => None) (fun _ => "") default_value_converter
              (fun _ => Ok []) (fun _ => Raise (OSError "no such file"))
              [side_mapping] side_mapping eq_refl ltac:(left) eq_refl eq_refl)
    as (_ & Hkey & _ & Hrun).
  split.
  - apply Hkey. eexists. reflexivity.
  - rewrite Hrun; vm_compute; reflexivity.
Defined.

(** ** Fixed-width parser *)

Definition column_length (column : Column) : Z := default 1 (col_length column).

(** The offset of the column at index [i]: the lengths of the columns
    before it, summed from 0. *)
Definition offset_of (columns : list Column) (i : nat) : Z :=
  foldr Z.add 0 (column_length <$> take i columns).

(** The text of a column that starts at [offset]: empty when its span
    ends beyond the line, else the span without surrounding whitespace. *)
Definition extracted (line : string) (offset : Z) (column : Column) : string :=
  if offset + column_length column >? PyStr.len line then ""
  else PyStr.strip (PyStr.slice line offset (offset + column_length column)).

(** The cell a column's text becomes. *)
Definition cell (float_of_str : string -> option float) (column : Column)
    (field_value : string) : value :=
  if String.eqb (default "string" (col_data_type column)) "numeric" then
    if String.eqb field_value "" then VFloat 0%float
    else match float_of_str field_value with
         | Some f => VFloat f
         | None => VFloat 0%float
         end
  else VStr field_value.

(** The record after the columns [columns], read from [position] on. *)
Fixpoint parsed_record (float_of_str : string -> option float) (line : string)
    (columns : list Column) (record : Row) (position : Z) : Row :=
  match columns with
  | [] => record
  | column :: columns' =>
      match col_name column with
      | Some name =>
          parsed_record float_of_str line columns'
            (<[name := cell float_of_str column (extracted line position column)]> record)
            (position + column_length column)
      | None => record
      end
  end.

Lemma parse_column_outcome fos line line_num record position column name :
  col_name column = Some name ->
  outcome (parse_column fos line line_num (record, position) column)
  = Ok (<[name := cell fos column (extracted line position column)]> record,
        position + column_length column).
Proof.
  intros Hn. unfold parse_column, cell, extracted, column_length, when. rewrite Hn.
  destruct (String.eqb (default "string" (col_data_type column)) "string") eqn:Es;
    destruct (String.eqb (default "string" (col_data_type column)) "numeric") eqn:En;
    try (apply String.eqb_eq in Es; rewrite Es in En; discriminate En);
    destruct (position + default 1 (col_length column) >? PyStr.len line);
    destruct (default false (col_required column));
    monad_simpl; cbn [andb];
    repeat first
      [ reflexivity
      | progress monad_simpl
      | match goal with
        | |- context [String.eqb ?x ""] => destruct (String.eqb x "")
        | |- context [fos ?x] => destruct (fos x)
        end ].
Qed.

Lemma parse_columns_outcome fos line line_num columns :
  Forall (fun col => is_Some (col_name col)) columns ->
  forall record position,
    exists position',
      outcome (foldM (parse_column fos line line_num) columns (record, position))
      = Ok (parsed_record fos line columns record position, position').
Proof.
  induction 1 as [|column columns [name Hn] Hl IH]; intros record position.
  - exists position. reflexivity.
  - cbn [foldM parsed_record]. rewrite outcome_bind, (parse_column_outcome _ _ _ _ _ _ _ Hn).
    cbv beta iota. rewrite Hn. apply IH.
Qed.

Lemma parsed_record_other fos line columns record position name :
  name ∉ omap col_name columns ->
  parsed_record fos line columns record position !! name = record !! name.
Proof.
  revert record position. induction columns as [|column columns IH];
    intros record position Hnot; [reflexivity|].
  cbn [parsed_record]. cbn [omap list_omap] in Hnot.
  destruct (col_name column) as [name'|]; [|reflexivity].
  apply not_elem_of_cons in Hnot as [Hne Hnot].
  rewrite IH by exact Hnot. apply lookup_insert_ne. congruence.
Qed.

Lemma parsed_record_lookup fos line columns :
  Forall (fun col => is_Some (col_name col)) columns ->
  NoDup (omap col_name columns) ->
  forall record position i column name,
    columns !! i = Some column ->
    col_name column = Some name ->
    parsed_record fos line columns record position !! name
    = Some (cell fos column (extracted line (position + offset_of columns i) column)).
Proof.
  induction 1 as [|column0 columns [name0 Hn0] Hl IH]; intros Hnd record position i column name Hi Hn.
  - destruct i; discriminate.
  - cbn [parsed_record]. cbn [omap list_omap] in Hnd. rewrite Hn0 in *.
    apply NoDup_cons in Hnd as [Hnot Hnd].
    destruct i as [|i].
    + injection Hi as <-. assert (name0 = name) as -> by congruence.
      rewrite parsed_record_other by exact Hnot.
      rewrite lookup_insert_eq. unfold offset_of. cbn. rewrite Z.add_0_r. reflexivity.
    + rewrite (IH Hnd _ _ i column name Hi Hn). unfold offset_of. cbn [take fmap list_fmap foldr].
      rewrite Z.add_assoc. reflexivity.
Qed.

Lemma parsed_record_dom fos line columns :
  Forall (fun col => is_Some (col_name col)) columns ->
  forall record position,
    dom (parsed_record fos line columns record position)
    = dom record ∪ list_to_set (omap col_name columns).
Proof.
  induction 1 as [|column columns [name Hn] Hl IH]; intros record position.
  - cbn. apply set_eq. intros k. rewrite elem_of_union, elem_of_empty. tauto.
  - cbn [parsed_record omap list_omap]. rewrite Hn, IH, dom_insert_L.
    cbn [list_to_set]. apply set_eq. intros k.
    rewrite !elem_of_union. tauto.
Qed.

(** A line parsed against a schema whose columns are named, with no name
    twice: a record is returned, its keys are the column names, and the
    cell of the column at index [i] is the text found at the cumulative
    offset of [i]; when the span of the column ends beyond the line, the
    cell is the empty string (0.0 in a numeric column). *)
Theorem parse_dat_line_record
    (float_of_str : string -> option float) (self : ConfigDrivenETLConverter)
    (line : string) (line_num : Z) (columns : list Column) :
  sch_columns (input_schema self) = Some columns ->
  Forall (fun col => is_Some (col_name col)) columns ->
  NoDup (omap col_name columns) ->
  exists record : Row,
    outcome (parse_dat_line float_of_str self line line_num) = Ok (Some record)
    /\ dom record = list_to_set (omap col_name columns)
    /\ forall i column name,
         columns !! i = Some column ->
         col_name column = Some name ->
         record !! name
         = Some (cell float_of_str column (extracted line (offset_of columns i) column))
         /\ (offset_of columns i + column_length column > PyStr.len line ->
             record !! name
             = Some (if String.eqb (default "string" (col_data_type column)) "numeric"
                     then VFloat 0%float else VStr "")).
Proof.
  intros Hc Hn Hnd.
  destruct (parse_columns_outcome float_of_str line line_num columns Hn ∅ 0)
    as [position' Hfold].
  exists (parsed_record float_of_str line columns ∅ 0). split; [|split].
  - unfold parse_dat_line. rewrite outcome_try_except, outcome_bind, Hc, outcome_item_Some.
    cbv beta iota. rewrite outcome_bind, Hfold. reflexivity.
  - rewrite (parsed_record_dom _ _ _ Hn), dom_empty_L. apply set_eq. intros k.
    rewrite elem_of_union, elem_of_empty. tauto.
  - intros i column name Hi Hname.
    pose proof (parsed_record_lookup float_of_str line columns Hn Hnd ∅ 0 i column name
                  Hi Hname) as Hcell.
    rewrite Z.add_0_l in Hcell. split; [exact Hcell|].
    intros Hshort. rewrite Hcell. unfold cell, extracted.
    replace (offset_of columns i + column_length column >? PyStr.len line) with true
      by (symmetry; apply Z.gtb_lt; lia).
    reflexivity.
Qed.

(** Three columns of widths 3, 5 and 4: a string, a number and a string. *)
Definition three_column_converter : ConfigDrivenETLConverter :=
  {| input_schema :=
       {| sch_columns :=
            Some [ {| col_name := Some "CURRENCY_Cosmos"; col_length := Some 3;
                      col_data_type := Some "string"; col_required := Some true |};
                   {| col_name := Some "FACE_VALUE"; col_length := Some 5;
                      col_data_type := Some "numeric"; col_required := None |};
                   {| col_name := Some "BRANCH"; col_length := Some 4;
                      col_data_type := None; col_required := Some true |} ];
          sch_validation_rules := None;
          sch_additional_fields := None |};
     output_schema := empty_schema;
     processing_rules := empty_processing_rules |}.

(** A line of five characters: the second span ends at 8 and the third
    at 12, both beyond the line. *)
Lemma parse_dat_line_record_witness :
  exists record : Row,
    outcome (parse_dat_line (fun _ => None) three_column_converter "JPY 1" 1)
    = Ok (Some record)
    /\ record !! "CURRENCY_Cosmos" = Some (VStr "JPY")
    /\ record !! "FACE_VALUE" = Some (VFloat 0%float)
    /\ record !! "BRANCH" = Some (VStr "").
Proof.
  assert (Hn : Forall (fun col => is_Some (col_name col))
                 (default [] (sch_columns (input_schema three_column_converter)))).
  { repeat (constructor; [eexists; reflexivity|]). constructor. }
  assert (Hnd : NoDup (omap col_name
                         (default [] (sch_columns (input_schema three_column_converter))))).
  { refine (bool_decide_unpack _ _). vm_compute. exact I. }
  destruct (parse_dat_line_record (fun _ => None) three_column_converter "JPY 1" 1 _
              eq_refl Hn Hnd) as (record & Hrec & _ & Hcells).
  exists record. split; [exact Hrec|]. split; [|split].
  - destruct (Hcells 0%nat _ "CURRENCY_Cosmos" eq_refl eq_refl) as [H _]. exact H.
  - destruct (Hcells 1%nat _ "FACE_VALUE" eq_refl eq_refl) as [_ H].
    apply H. vm_compute. reflexivity.
  - destruct (Hcells 2%nat _ "BRANCH" eq_refl eq_refl) as [_ H].
    apply H. vm_compute. reflexivity.
Defined.

Lemma parse_column_unnamed fos line line_num st column :
  col_name column = None ->
  outcome (parse_column fos line line_num st column) = Raise (KeyError "name").
Proof.
  intros Hn. destruct st as [record position]. unfold parse_column.
  rewrite Hn. reflexivity.
Qed.

Lemma parse_columns_unnamed fos line line_num pre column post :
  Forall (fun col => is_Some (col_name col)) pre ->
  col_name column = None ->
  forall record position,
    outcome (foldM (parse_column fos line line_num) (pre ++ column :: post)
                   (record, position))
    = Raise (KeyError "name").
Proof.
  intros Hpre Hn. induction Hpre as [|c pre [name Hc] Hpre IH]; intros record position.
  - cbn [app foldM]. rewrite outcome_bind, (parse_column_unnamed _ _ _ _ _ Hn).
    reflexivity.
  - cbn [app foldM]. rewrite outcome_bind, (parse_column_outcome _ _ _ _ _ _ _ Hc).
    cbv beta iota. apply IH.
Qed.

Lemma try_except_raised {A} (m : M A) (h : exn -> M A) (e : exn) :
  outcome m = Raise e ->
  try_except m h = (logged m ++ logged (h e), outcome (h e)).
Proof.
  destruct m as [l r]. simpl. intros ->. simpl. destruct (h e); reflexivity.
Qed.

(** A schema with a column that has no [name]: on every line the lookup
    raises inside the [try], so [parse_dat_line] returns [None] and the
    last thing it logs is the error for that line. *)
Theorem parse_dat_line_unnamed_column
    (float_of_str : string -> option float) (self : ConfigDrivenETLConverter)
    (line : string) (line_num : Z) (pre post : list Column) (column : Column) :
  sch_columns (input_schema self) = Some (pre ++ column :: post) ->
  Forall (fun col => is_Some (col_name col)) pre ->
  col_name column = None ->
  outcome (parse_dat_line float_of_str self line line_num) = Ok None
  /\ last (logged (parse_dat_line float_of_str self line line_num))
     = Some (ERROR, MsgErrorParsingLine line_num (KeyError "name")).
Proof.
  intros Hc Hpre Hn. unfold parse_dat_line.
  rewrite (try_except_raised _ _ (KeyError "name")).
  - split; [reflexivity|]. cbn [logged fst]. apply last_snoc.
  - rewrite outcome_bind, Hc, outcome_item_Some. cbv beta iota.
    rewrite outcome_bind, (parse_columns_unnamed _ _ _ _ _ _ Hpre Hn). reflexivity.
Qed.

Definition unnamed_column_converter : ConfigDrivenETLConverter :=
  {| input_schema :=
       {| sch_columns :=
            Some [ {| col_name := Some "CURRENCY_Cosmos"; col_length := Some 3;
                      col_data_type := Some "string"; col_required := Some true |};
                   {| col_name := None; col_length := Some 5;
                      col_data_type := Some "numeric"; col_required := None |} ];
          sch_validation_rules := None;
          sch_additional_fields := None |};
     output_schema := empty_schema;
     processing_rules := empty_processing_rules |}.

Lemma parse_dat_line_unnamed_column_witness :
  outcome (parse_dat_line (fun _ => None) unnamed_column_converter "JPY  12.5" 7) = Ok None.
Proof.
  apply (parse_dat_line_unnamed_column (fun _ => None) unnamed_column_converter
           "JPY  12.5" 7
           [ {| col_name := Some "CURRENCY_Cosmos"; col_length := Some 3;
                col_data_type := Some "string"; col_required := Some true |} ]
           []
           {| col_name := None; col_length := Some 5;
              col_data_type := Some "numeric"; col_required := None |}).
  - reflexivity.
  - constructor; [eexists; reflexivity|constructor].
  - reflexivity.
Defined.

Lemma offset_of_0 (columns : list Column) : offset_of columns 0 = 0.
Proof. reflexivity. Qed.

Lemma offset_of_S (columns : list Column) (i : nat) (column : Column) :
  columns !! i = Some column ->
  offset_of columns (S i) = offset_of columns i + column_length column.
Proof.
  intros Hi. unfold offset_of. rewrite (take_S_r columns i column Hi), fmap_app.
  cbn [fmap list_fmap].
  generalize (column_length <$> take i columns). intros l.
  induction l as [|x l IH]; cbn [foldr app]; [lia|]. rewrite IH. lia.
Qed.

Lemma parse_dat_line_returns fos self line line_num :
  exists record, outcome (parse_dat_line fos self line line_num) = Ok record.
Proof.
  unfold parse_dat_line. rewrite outcome_try_except.
  destruct (outcome _) as [record|e]; [exists record; reflexivity|].
  exists None. reflexivity.
Qed.

(** C7. [parse_dat_line] never raises.  On a schema whose columns are
    named, no name twice, it returns a record on every line, however
    short: the columns are read in their order at cumulative offsets
    from 0; the text of a column is empty when its span ends beyond the
    line, and the span without surrounding whitespace otherwise; a
    column that is not numeric holds its text, and a numeric column holds
    0.0 for an empty text, 0.0 for a text that [float] rejects and the
    number that [float] reads otherwise. *)
Theorem parse_dat_line_short_lines_and_numbers
    (float_of_str : string -> option float) (self : ConfigDrivenETLConverter)
    (line : string) (line_num : Z) (columns : list Column) :
  (exists record,
      outcome (parse_dat_line float_of_str self line line_num) = Ok record)
  /\ (sch_columns (input_schema self) = Some columns ->
      Forall (fun col => is_Some (col_name col)) columns ->
      NoDup (omap col_name columns) ->
      exists record : Row,
        outcome (parse_dat_line float_of_str self line line_num) = Ok (Some record)
        /\ offset_of columns 0 = 0
        /\ forall (i : nat) column name,
             columns !! i = Some column ->
             col_name column = Some name ->
             let offset := offset_of columns i in
             let numeric :=
               String.eqb (default "string" (col_data_type column)) "numeric" in
             offset_of columns (S i) = offset + column_length column
             /\ exists field_value : string,
                  (offset + column_length column > PyStr.len line -> field_value = "")
                  /\ (offset + column_length column <= PyStr.len line ->
                      field_value
                      = PyStr.strip
                          (PyStr.slice line offset (offset + column_length column)))
                  /\ (numeric = false -> record !! name = Some (VStr field_value))
                  /\ (numeric = true -> field_value = "" ->
                      record !! name = Some (VFloat 0%float))
                  /\ (numeric = true -> field_value <> "" ->
                      float_of_str field_value = None ->
                      record !! name = Some (VFloat 0%float))
                  /\ (forall f : float,
                        numeric = true -> field_value <> "" ->
                        float_of_str field_value = Some f ->
                        record !! name = Some (VFloat f))).
Proof.
  split; [apply parse_dat_line_returns|].
  intros Hc Hn Hnd.
  destruct (parse_columns_outcome float_of_str line line_num columns Hn ∅ 0)
    as [position' Hfold].
  exists (parsed_record float_of_str line columns ∅ 0). split; [|split].
  - unfold parse_dat_line. rewrite outcome_try_except, outcome_bind, Hc, outcome_item_Some.
    cbv beta iota. rewrite outcome_bind, Hfold. reflexivity.
  - reflexivity.
  - intros i column name Hi Hname offset numeric.
    split; [apply offset_of_S, Hi|].
    pose proof (parsed_record_lookup float_of_str line columns Hn Hnd ∅ 0 i column name
                  Hi Hname) as Hcell.
    rewrite Z.add_0_l in Hcell. fold offset in Hcell.
    exists (extracted line offset column).
    split; [|split].
    + intros Hshort. unfold extracted.
      replace (offset + column_length column >? PyStr.len line) with true
        by (symmetry; apply Z.gtb_lt; lia).
      reflexivity.
    + intros Hlong. unfold extracted.
      replace (offset + column_length column >? PyStr.len line) with false
        by (symmetry; rewrite Z.gtb_ltb; apply Z.ltb_ge; lia).
      reflexivity.
    + rewrite Hcell. unfold cell. fold numeric.
      destruct numeric.
      * split; [discriminate|]. split; [|split].
        -- intros _ ->. reflexivity.
        -- intros _ Hne Hnone.
           replace (String.eqb (extracted line offset column) "") with false
             by (symmetry; apply String.eqb_neq, Hne).
           rewrite Hnone. reflexivity.
        -- intros f _ Hne Hsome.
           replace (String.eqb (extracted line offset column) "") with false
             by (symmetry; apply String.eqb_neq, Hne).
           rewrite Hsome. reflexivity.
      * split; [reflexivity|]. split; [discriminate|]. split; [discriminate|].
        intros f Hf. discriminate Hf.
Qed.

(** A [float] that reads one text only. *)
Definition sample_float_of_str (s : string) : option float :=
  if String.eqb s "12.5" then Some 12.5%float else None.

(** A line of five characters, on which the spans of the second and the
    third column end beyond the line; a line of twelve characters whose
    number is read; and one whose second column is not a number. *)
Lemma parse_dat_line_short_lines_and_numbers_witness :
  (exists record : Row,
      outcome (parse_dat_line sample_float_of_str three_column_converter "JPY 1" 1)
      = Ok (Some record)
      /\ record !! "FACE_VALUE" = Some (VFloat 0%float)
      /\ record !! "BRANCH" = Some (VStr ""))
  /\ (exists record : Row,
         outcome (parse_dat_line sample_float_of_str three_column_converter
                    "USD 12.5ABCD" 2)
         = Ok (Some record)
         /\ record !! "CURRENCY_Cosmos" = Some (VStr "USD")
         /\ record !! "FACE_VALUE" = Some (VFloat 12.5%float))
  /\ (exists record : Row,
         outcome (parse_dat_line sample_float_of_str three_column_converter
                    "USD 1x.5ABCD" 3)
         = Ok (Some record)
         /\ record !! "FACE_VALUE" = Some (VFloat 0%float)).
Proof.
  assert (Hn : Forall (fun col => is_Some (col_name col))
                 (default [] (sch_columns (input_schema three_column_converter)))).
  { repeat (constructor; [eexists; reflexivity|]). constructor. }
  assert (Hnd : NoDup (omap col_name
                         (default [] (sch_columns (input_schema three_column_converter))))).
  { refine (bool_decide_unpack _ _). vm_compute. exact I. }
  split; [|split].
  - destruct (proj2 (parse_dat_line_short_lines_and_numbers sample_float_of_str
                       three_column_converter "JPY 1" 1 _) eq_refl Hn Hnd)
      as (record & Hrec & _ & Hcells).
    exists record. split; [exact Hrec|]. split.
    + destruct (Hcells 1%nat _ "FACE_VALUE" eq_refl eq_refl)
        as (_ & field_value & Hshort & _ & _ & Hempty & _).
      apply Hempty; [reflexivity|]. apply Hshort. vm_compute. reflexivity.
    + destruct (Hcells 2%nat _ "BRANCH" eq_refl eq_refl)
        as (_ & field_value & Hshort & _ & Htext & _).
      rewrite (Htext eq_refl). rewrite Hshort; [reflexivity|]. vm_compute. reflexivity.
  - destruct (proj2 (parse_dat_line_short_lines_and_numbers sample_float_of_str
                       three_column_converter "USD 12.5ABCD" 2 _) eq_refl Hn Hnd)
      as (record & Hrec & _ & Hcells).
    exists record. split; [exact Hrec|]. split.
    + destruct (Hcells 0%nat _ "CURRENCY_Cosmos" eq_refl eq_refl)
        as (_ & field_value & _ & Hspan & Htext & _).
      rewrite (Htext eq_refl). rewrite Hspan; [reflexivity|]. vm_compute. discriminate.
    + destruct (Hcells 1%nat _ "FACE_VALUE" eq_refl eq_refl)
        as (_ & field_value & _ & Hspan & _ & _ & _ & Hnumber).
      assert (Hv : field_value = "12.5").
      { rewrite Hspan; [reflexivity|]. vm_compute. discriminate. }
      apply Hnumber; [reflexivity|rewrite Hv; discriminate|rewrite Hv; reflexivity].
  - destruct (proj2 (parse_dat_line_short_lines_and_numbers sample_float_of_str
                       three_column_converter "USD 1x.5ABCD" 3 _) eq_refl Hn Hnd)
      as (record & Hrec & _ & Hcells).
    exists record. split; [exact Hrec|].
    destruct (Hcells 1%nat _ "FACE_VALUE" eq_refl eq_refl)
      as (_ & field_value & _ & Hspan & _ & _ & Hrejected & _).
    assert (Hv : field_value = "1x.5").
    { rewrite Hspan; [reflexivity|]. vm_compute. discriminate. }
    apply Hrejected; [reflexivity|rewrite Hv; discriminate|rewrite Hv; reflexivity].
Defined.

(** *** Reading a file of lines *)

(** A line that [read_dat_file] does not skip. *)
Definition nonblank (line : string) : bool :=
  negb (String.eqb (PyStr.strip (PyStr.rstrip_newline line)) "").

Lemma parsed_record_nonempty fos line columns :
  columns <> [] ->
  Forall (fun col => is_Some (col_name col)) columns ->
  bool_decide (parsed_record fos line columns ∅ 0 = ∅) = false.
Proof.
  intros Hne Hn. apply bool_decide_eq_false. intros Hempty.
  destruct Hn as [|column columns [name Hname] Hn]; [congruence|].
  assert (Hin : name ∈ dom (parsed_record fos line (column :: columns) ∅ 0)).
  { rewrite parsed_record_dom by (constructor; eauto).
    cbn [omap list_omap]. rewrite Hname. set_solver. }
  rewrite Hempty, dom_empty_L in Hin. set_solver.
Qed.

Lemma read_dat_lines_records fos self columns :
  sch_columns (input_schema self) = Some columns ->
  columns <> [] ->
  Forall (fun col => is_Some (col_name col)) columns ->
  forall lines line_num,
    outcome (read_dat_lines fos self lines line_num)
    = Ok (List.map (fun line => parsed_record fos (PyStr.rstrip_newline line) columns ∅ 0)
                   (List.filter nonblank lines)).
Proof.
  intros Hc Hne Hn. induction lines as [|line lines IH]; intros line_num; [reflexivity|].
  cbn [read_dat_lines List.filter]. unfold nonblank at 1.
  destruct (String.eqb (PyStr.strip (PyStr.rstrip_newline line)) ""); cbn [negb].
  - apply IH.
  - destruct (parse_columns_outcome fos (PyStr.rstrip_newline line) line_num columns Hn ∅ 0)
      as [position' Hfold].
    assert (Hp : outcome (parse_dat_line fos self (PyStr.rstrip_newline line) line_num)
                 = Ok (Some (parsed_record fos (PyStr.rstrip_newline line) columns ∅ 0))).
    { unfold parse_dat_line.
      rewrite outcome_try_except, outcome_bind, Hc, outcome_item_Some.
      cbv beta iota. rewrite outcome_bind, Hfold. reflexivity. }
    rewrite outcome_bind, Hp. cbv beta iota. rewrite outcome_bind, IH. cbv beta iota.
    rewrite (parsed_record_nonempty _ _ _ Hne Hn). reflexivity.
Qed.

(** Reading a file against a schema with at least one column, all of them
    named: the table is built from one record per line that is not blank,
    in the order of the file, each parsed without its line ending; blank
    lines give no record. *)
Theorem read_dat_file_records
    (float_of_str : string -> option float) (self : ConfigDrivenETLConverter)
    (readlines : string -> result (list string))
    (file_path : string) (lines : list string) (columns : list Column) :
  readlines file_path = Ok lines ->
  sch_columns (input_schema self) = Some columns ->
  columns <> [] ->
  Forall (fun col => is_Some (col_name col)) columns ->
  let records :=
    List.map (fun line => parsed_record float_of_str (PyStr.rstrip_newline line) columns ∅ 0)
             (List.filter nonblank lines) in
  outcome (read_dat_file float_of_str self readlines file_path)
  = Ok (DataFrame_of_records records)
  /\ length (df_rows (DataFrame_of_records records))
     = length (List.filter nonblank lines).
Proof.
  intros Hr Hc Hne Hn records. split.
  - unfold read_dat_file. rewrite outcome_log_then, outcome_try_except.
    rewrite outcome_bind, outcome_lift, Hr. cbv beta iota.
    rewrite outcome_bind, (read_dat_lines_records _ _ _ Hc Hne Hn). cbv beta iota.
    rewrite outcome_log_then. reflexivity.
  - unfold DataFrame_of_records, records. cbn [df_rows].
    rewrite !length_map. reflexivity.
Qed.

Definition newline : string := String (ascii_of_nat 10) "".

Definition sample_lines : list string :=
  [ "JPY 1" +:+ newline; newline; "    " +:+ newline; "USD 12.5ABCD" +:+ newline ].

Lemma read_dat_file_records_witness :
  exists df : DataFrame,
    outcome (read_dat_file sample_float_of_str three_column_converter
               (fun _ => Ok sample_lines) "sample_input.dat")
    = Ok df
    /\ length (df_rows df) = 2%nat.
Proof.
  assert (Hn : Forall (fun col => is_Some (col_name col))
                 (default [] (sch_columns (input_schema three_column_converter)))).
  { repeat (constructor; [eexists; reflexivity|]). constructor. }
  destruct (read_dat_file_records sample_float_of_str three_column_converter
              (fun _ => Ok sample_lines) "sample_input.dat" sample_lines _
              eq_refl eq_refl ltac:(discriminate) Hn) as [Hdf Hlen].
  eexists. split; [exact Hdf|]. rewrite Hlen. vm_compute. reflexivity.
Defined.

(** The records of the sample file: the second line of data has a
    number in its numeric column. *)
Example read_dat_lines_sample :
  outcome (read_dat_lines sample_float_of_str three_column_converter sample_lines 1)
  = Ok [ {[ "CURRENCY_Cosmos" := VStr "JPY"; "FACE_VALUE" := VFloat 0%float;
            "BRANCH" := VStr "" ]};
         {[ "CURRENCY_Cosmos" := VStr "USD"; "FACE_VALUE" := VFloat 12.5%float;
            "BRANCH" := VStr "ABCD" ]} ].
Proof. vm_compute. reflexivity. Qed.

(** What [parse_dat_line] returns on a schema without [columns], with an
    empty list of them, or with a column that has no [name]: [None] or
    the empty record, both of which [read_dat_file] drops. *)
Lemma parse_dat_line_nothing fos self line line_num :
  match sch_columns (input_schema self) with
  | None => True
  | Some columns => columns = [] \/ Exists (fun col => col_name col = None) columns
  end ->
  outcome (parse_dat_line fos self line line_num) = Ok None
  \/ outcome (parse_dat_line fos self line line_num) = Ok (Some ∅).
Proof.
  unfold parse_dat_line. rewrite outcome_try_except, outcome_bind.
  destruct (sch_columns (input_schema self)) as [columns|]; [|left; reflexivity].
  rewrite outcome_item_Some. cbv beta iota. rewrite outcome_bind.
  intros [->|Hex].
  - right. reflexivity.
  - left. apply Exists_exists in Hex as (column & Hin & Hn).
    destruct (foldM_raises (parse_column fos line line_num) columns column
                Hin
                (fun st => ex_intro _ _ (parse_column_unnamed fos line line_num st column Hn))
                (∅, 0)) as [e ->].
    reflexivity.
Qed.

(** A schema that has no [columns], an empty list of them, or a column
    without a [name] gives a table without records, whatever the file
    holds: every line is dropped and nothing is raised. *)
Theorem read_dat_file_drops_every_line
    (float_of_str : string -> option float) (self : ConfigDrivenETLConverter)
    (readlines : string -> result (list string))
    (file_path : string) (lines : list string) :
  readlines file_path = Ok lines ->
  match sch_columns (input_schema self) with
  | None => True
  | Some columns => columns = [] \/ Exists (fun col => col_name col = None) columns
  end ->
  outcome (read_dat_file float_of_str self readlines file_path)
  = Ok {| df_columns := []; df_rows := [] |}.
Proof.
  intros Hr Hs.
  assert (Hlines : forall line_num,
             outcome (read_dat_lines float_of_str self lines line_num) = Ok []).
  { clear Hr. induction lines as [|line lines IH]; intros line_num; [reflexivity|].
    cbn [read_dat_lines]. cbv beta zeta.
    destruct (String.eqb (PyStr.strip (PyStr.rstrip_newline line)) ""); [apply IH|].
    rewrite outcome_bind.
    destruct (parse_dat_line_nothing float_of_str self (PyStr.rstrip_newline line)
                line_num Hs) as [-> | ->];
      cbv beta iota; rewrite outcome_bind, IH; reflexivity. }
  unfold read_dat_file. rewrite outcome_log_then, outcome_try_except.
  rewrite outcome_bind, outcome_lift, Hr. cbv beta iota.
  rewrite outcome_bind, Hlines. cbv beta iota.
  rewrite outcome_log_then. reflexivity.
Qed.

Lemma read_dat_file_drops_every_line_witness :
  outcome (read_dat_file sample_float_of_str unnamed_column_converter
             (fun _ => Ok sample_lines) "sample_input.dat")
  = Ok {| df_columns := []; df_rows := [] |}.
Proof.
  apply (read_dat_file_drops_every_line sample_float_of_str unnamed_column_converter
           (fun _ => Ok sample_lines) "sample_input.dat" sample_lines eq_refl).
  right. apply Exists_cons_tl, Exists_cons_hd. reflexivity.
Defined.

(** ** Safe conversion to a number *)

(** [safe_float_conversion] is 0.0 on every false value ([None], the
    empty string, 0, 0.0) and on a string that [float] rejects, and the
    float itself on a true [float]; the one exception it lets through is
    the [OverflowError] of an [int] too large for a [float], as for
    2^1024. *)
Theorem safe_float_conversion_cases
    (float_of_str : string -> option float) (v : value) :
  (truthy v = false -> safe_float_conversion float_of_str v = Ok 0%float)
  /\ (forall s, v = VStr s -> float_of_str s = None ->
        safe_float_conversion float_of_str v = Ok 0%float)
  /\ (forall f, v = VFloat f -> truthy v = true ->
        safe_float_conversion float_of_str v = Ok f)
  /\ (forall e, safe_float_conversion float_of_str v = Raise e ->
        e = OverflowError
        /\ exists n, v = VInt n /\ float_of_int n = Raise OverflowError)
  /\ safe_float_conversion float_of_str (VInt (2 ^ 1024)) = Raise OverflowError.
Proof.
  split; [|split; [|split; [|split]]].
  - intros Hf. unfold safe_float_conversion. rewrite Hf. reflexivity.
  - intros s -> Hs. unfold safe_float_conversion, py_float. rewrite Hs.
    destruct (truthy (VStr s)); reflexivity.
  - intros f -> Ht. unfold safe_float_conversion. rewrite Ht. reflexivity.
  - intros e. unfold safe_float_conversion, py_float.
    destruct (truthy v); [|discriminate].
    destruct v as [s|n|f|].
    + destruct (float_of_str s); discriminate.
    + unfold float_of_int.
      destruct (is_infinity _) eqn:E; [|discriminate].
      intros [= <-]. split; [reflexivity|]. exists n. split; [reflexivity|].
      unfold float_of_int. rewrite E. reflexivity.
    + discriminate.
    + discriminate.
  - vm_compute. reflexivity.
Qed.

Lemma safe_float_conversion_cases_witness :
  safe_float_conversion sample_float_of_str (VStr "") = Ok 0%float
  /\ safe_float_conversion sample_float_of_str (VStr "abc") = Ok 0%float
  /\ safe_float_conversion sample_float_of_str (VFloat (-2.5)%float) = Ok (-2.5)%float.
Proof.
  split; [|split].
  - apply (proj1 (safe_float_conversion_cases sample_float_of_str (VStr ""))).
    reflexivity.
  - apply (proj1 (proj2 (safe_float_conversion_cases sample_float_of_str (VStr "abc")))
             "abc"); reflexivity.
  - apply (proj1 (proj2 (proj2 (safe_float_conversion_cases sample_float_of_str
                                  (VFloat (-2.5)%float)))) (-2.5)%float);
      reflexivity.
Defined.

(** ** The catalogue of conditions *)

(** A condition that is exactly one of the ten pattern texts is decided
    by the branch written for it: no pattern text occurs in another one
    that comes later in the chain. *)
Lemma evaluate_condition_patterns fos row face_value :
  safe_float_conversion fos (row_get row "FACE_VALUE" (VInt 0)) = Ok face_value ->
  let jpy := eq_str (row_get row "CURRENCY_Cosmos" (VStr "")) "JPY" in
  let dg := in_strs (row_get row "PRODUCT_TYPE" (VStr "")) ["D"; "G"] in
  let flex := eq_str (row_get row "Currency_Flex" (VStr "")) "JPY" in
  let status := row_get row "CONTRACT_STATUS" (VStr "") in
  List.map (fun p => outcome (evaluate_condition fos row p)) condition_patterns
  = [ Ok (jpy && dg); Ok (jpy && negb dg); Ok (negb jpy && dg); Ok (negb jpy && negb dg);
      Ok flex; Ok (negb flex);
      Ok (eq_str status "Y" && PrimFloat.leb 0 face_value);
      Ok (eq_str status "Y" && PrimFloat.ltb face_value 0);
      Ok (eq_str status "A" && PrimFloat.leb 0 face_value);
      Ok (eq_str status "A" && PrimFloat.ltb face_value 0) ].
Proof.
  intros Hf jpy dg flex status. unfold condition_patterns. cbn [List.map].
  rewrite !evaluate_condition_of_body. unfold evaluate_condition_body.
  rewrite !outcome_bind, !outcome_lift, Hf. cbv beta iota.
  fold jpy dg flex status.
  generalize jpy dg flex (eq_str status "Y") (eq_str status "A")
             (PrimFloat.leb 0 face_value) (PrimFloat.ltb face_value 0).
  intros b1 b2 b3 b4 b5 b6 b7. vm_compute. reflexivity.
Qed.

(** Whether a pattern text, taken as the whole condition, holds on a row. *)
Definition pattern_holds (float_of_str : string -> option float) (row : Row)
    (pattern : string) : bool :=
  match outcome (evaluate_condition float_of_str row pattern) with
  | Ok b => b
  | Raise _ => false
  end.

(** On a row whose [FACE_VALUE] converts, exactly one of the four
    currency and product-type conditions holds, and exactly one of the
    two [Currency_Flex] conditions.  On a row whose [FACE_VALUE] does not
    convert, no condition holds at all, not even those that do not read
    it. *)
Theorem currency_conditions_partition
    (float_of_str : string -> option float) (row : Row) :
  match safe_float_conversion float_of_str (row_get row "FACE_VALUE" (VInt 0)) with
  | Ok _ =>
      length (List.filter (pattern_holds float_of_str row)
                [pat_jpy_dg; pat_jpy_other; pat_nojpy_dg; pat_nojpy_other]) = 1%nat
      /\ length (List.filter (pattern_holds float_of_str row)
                   [pat_flex_jpy; pat_flex_nojpy]) = 1%nat
  | Raise _ =>
      forall condition, outcome (evaluate_condition float_of_str row condition) = Ok false
  end.
Proof.
  destruct (safe_float_conversion _ _) as [face_value|e] eqn:Hf.
  - pose proof (evaluate_condition_patterns float_of_str row face_value Hf) as H.
    cbv zeta in H.
    generalize dependent (eq_str (row_get row "CURRENCY_Cosmos" (VStr "")) "JPY").
    generalize dependent (in_strs (row_get row "PRODUCT_TYPE" (VStr "")) ["D"; "G"]).
    generalize dependent (eq_str (row_get row "Currency_Flex" (VStr "")) "JPY").
    intros flex dg jpy H.
    unfold condition_patterns in H. cbn [List.map] in H.
    injection H as H1 H2 H3 H4 H5 H6 _ _ _ _.
    unfold pattern_holds. cbn [List.filter]. rewrite H1, H2, H3, H4, H5, H6.
    destruct jpy; destruct dg; destruct flex; split; reflexivity.
  - intros condition. rewrite evaluate_condition_of_body.
    unfold evaluate_condition_body. rewrite outcome_bind, outcome_lift, Hf.
    reflexivity.
Qed.

(** ** LEAF_GL and accrual account *)

Lemma leaf_gl_loop_results fos sof row leaf_gl conditions v :
  outcome (leaf_gl_loop fos sof row leaf_gl conditions) = Ok v ->
  v = leaf_gl
  \/ v = VStr (py_str sof leaf_gl +:+ "_JPY_D_G")
  \/ v = VStr (py_str sof leaf_gl +:+ "_JPY_OTHER").
Proof.
  induction conditions as [|c conditions IH].
  - cbn. intros [= <-]. left. reflexivity.
  - cbn [leaf_gl_loop]. rewrite outcome_bind.
    destruct (cond_condition c) as [text|]; [|discriminate].
    rewrite outcome_item_Some. cbv beta iota. rewrite outcome_bind.
    destruct (evaluate_condition_never_raises fos row text) as [b Hb]. rewrite Hb.
    cbv beta iota. destruct b; [|exact IH].
    rewrite outcome_bind.
    destruct (cond_action c) as [action|]; [|discriminate].
    rewrite outcome_item_Some. cbv beta iota.
    destruct (PyStr.contains "JPY_D_G" action) eqn:E1.
    { intros [= <-]. right. left. reflexivity. }
    destruct (PyStr.contains "JPY_OTHER" action) eqn:E2.
    { intros [= <-]. right. right. reflexivity. }
    destruct (PyStr.contains "NOJPY_D_G" action) eqn:E3.
    { apply (contains_after_NO "JPY_D_G") in E3. congruence. }
    destruct (PyStr.contains "NOJPY_OTHER" action) eqn:E4.
    { apply (contains_after_NO "JPY_OTHER") in E4. congruence. }
    exact IH.
Qed.

(** Whatever the rule and the row, LEAF_GL_CALCULATION returns the row's
    [LEAF_GL] as it is, or its text followed by [_JPY_D_G] or by
    [_JPY_OTHER]: it never appends [_NOJPY_D_G] or [_NOJPY_OTHER]. *)
Theorem calculate_leaf_gl_results
    (float_of_str : string -> option float) (str_of_float : float -> string)
    (row : Row) (rule : TransformationRule) (v : value) :
  outcome (calculate_leaf_gl_from_config float_of_str str_of_float row rule) = Ok v ->
  let leaf_gl := row_get row "LEAF_GL" (VStr "") in
  v = leaf_gl
  \/ v = VStr (py_str str_of_float leaf_gl +:+ "_JPY_D_G")
  \/ v = VStr (py_str str_of_float leaf_gl +:+ "_JPY_OTHER").
Proof.
  unfold calculate_leaf_gl_from_config. rewrite outcome_bind.
  destruct (outcome (rule_conditions rule)) as [conditions|]; [|discriminate].
  cbv beta iota. apply leaf_gl_loop_results.
Qed.

Lemma calculate_leaf_gl_results_witness :
  outcome (calculate_leaf_gl_from_config (fun _ => None) (fun _ => "")
             (leaf_gl_row "EUR" "F" "LEAF004") (leaf_gl_rule "NOJPY_D_G"))
  = Ok (VStr "LEAF004_JPY_OTHER").
Proof.
  destruct (outcome (calculate_leaf_gl_from_config (fun _ => None) (fun _ => "")
                       (leaf_gl_row "EUR" "F" "LEAF004") (leaf_gl_rule "NOJPY_D_G")))
    as [v|e] eqn:E; [|vm_compute in E; discriminate].
  destruct (calculate_leaf_gl_results _ _ _ _ v E) as [->| [->| ->]].
  - vm_compute in E. discriminate.
  - vm_compute in E. discriminate.
  - reflexivity.
Defined.





(** ** Dates *)

Lemma digit_char_val (k : Z) :
  0 <= k <= 9 ->
  PyStr.is_digit (PyStr.digit_char k) = true /\ PyStr.digit_val (PyStr.digit_char k) = k.
Proof.
  intros H.
  assert (k = 0 \/ k = 1 \/ k = 2 \/ k = 3 \/ k = 4 \/ k = 5 \/ k = 6 \/ k = 7
          \/ k = 8 \/ k = 9) as Hk by lia.
  repeat (destruct Hk as [->|Hk]; [split; reflexivity|]). subst. split; reflexivity.
Qed.

Lemma four_digits_zero_pad (y : Z) (rest : string) :
  0 <= y <= 9999 -> four_digits (PyStr.zero_pad 4 y +:+ rest) = Some (y, rest).
Proof.
  intros Hy.
  change (PyStr.zero_pad 4 y +:+ rest)
    with (String (PyStr.digit_char (y / 10 / 10 / 10 mod 10))
            (String (PyStr.digit_char (y / 10 / 10 mod 10))
               (String (PyStr.digit_char (y / 10 mod 10))
                  (String (PyStr.digit_char (y mod 10)) rest)))).
  unfold four_digits.
  destruct (digit_char_val (y / 10 / 10 / 10 mod 10)) as [-> ->];
    [pose proof (Z.mod_pos_bound (y / 10 / 10 / 10) 10); lia|].
  destruct (digit_char_val (y / 10 / 10 mod 10)) as [-> ->];
    [pose proof (Z.mod_pos_bound (y / 10 / 10) 10); lia|].
  destruct (digit_char_val (y / 10 mod 10)) as [-> ->];
    [pose proof (Z.mod_pos_bound (y / 10) 10); lia|].
  destruct (digit_char_val (y mod 10)) as [-> ->];
    [pose proof (Z.mod_pos_bound y 10); lia|].
  cbn [andb]. f_equal. f_equal. Z.div_mod_to_equations. lia.
Qed.

Lemma valid_date_bounds (dt : date) :
  valid_date dt = true ->
  1 <= year dt <= 9999 /\ 1 <= month dt <= 12 /\ 1 <= day dt <= 31.
Proof.
  unfold valid_date, days_in_month. intros H.
  repeat (apply andb_prop in H as [H ?]).
  repeat match goal with
         | H : (_ <=? _) = true |- _ => apply Z.leb_le in H
         end.
  destruct (month dt =? 2); [destruct (is_leap (year dt))|
    destruct ((month dt =? 4) || (month dt =? 6) || (month dt =? 9) || (month dt =? 11))];
    lia.
Qed.

Lemma candidates_DirY (s : string) :
  candidates DirY s = match four_digits s with Some x => [x] | None => [] end.
Proof. unfold candidates. destruct (four_digits s); reflexivity. Qed.

(** The eight digits [YYYYMMDD] of a date, as the specification and the
    docstring of [format_date] name its output: the year on four
    digits. *)
Definition YYYYMMDD (dt : date) : string :=
  PyStr.zero_pad 4 (year dt) +:+ PyStr.zero_pad 2 (month dt)
  +:+ PyStr.zero_pad 2 (day dt).

(** A valid date written as [YYYYMMDD] is read back by [%Y%m%d], and is
    not read by [%Y-%m-%d]. *)
Lemma strptime_YYYYMMDD (dt : date) :
  valid_date dt = true ->
  strptime (YYYYMMDD dt) "%Y-%m-%d" = None
  /\ strptime (YYYYMMDD dt) "%Y%m%d" = Some dt.
Proof.
  intros Hv. destruct (valid_date_bounds dt Hv) as (Hy & Hm & Hd).
  destruct dt as [y m d]. cbn [year month day] in *.
  unfold strptime, YYYYMMDD. cbn [year month day].
  change (tokens_of_format "%Y-%m-%d")
    with (Some [TDir DirY; TLit "-"; TDir Dirm; TLit "-"; TDir Dird]).
  change (tokens_of_format "%Y%m%d") with (Some [TDir DirY; TDir Dirm; TDir Dird]).
  cbn [mbind option_bind regex_match].
  rewrite !candidates_DirY, (four_digits_zero_pad y _ ltac:(lia)).
  cbn [first_some].
  assert (m = 1 \/ m = 2 \/ m = 3 \/ m = 4 \/ m = 5 \/ m = 6 \/ m = 7 \/ m = 8
          \/ m = 9 \/ m = 10 \/ m = 11 \/ m = 12) as Hmc by lia.
  assert (d = 1 \/ d = 2 \/ d = 3 \/ d = 4 \/ d = 5 \/ d = 6 \/ d = 7 \/ d = 8
          \/ d = 9 \/ d = 10 \/ d = 11 \/ d = 12 \/ d = 13 \/ d = 14 \/ d = 15
          \/ d = 16 \/ d = 17 \/ d = 18 \/ d = 19 \/ d = 20 \/ d = 21 \/ d = 22
          \/ d = 23 \/ d = 24 \/ d = 25 \/ d = 26 \/ d = 27 \/ d = 28 \/ d = 29
          \/ d = 30 \/ d = 31) as Hdc by lia.
  clear Hm Hd.
  repeat (destruct Hmc as [->|Hmc]);
    repeat (destruct Hdc as [->|Hdc]);
    subst; (split; [reflexivity|]); cbv -[valid_date]; rewrite Hv; reflexivity.
Qed.

Lemma length_append (a b : string) :
  String.length (a +:+ b) = (String.length a + String.length b)%nat.
Proof.
  induction a as [|c a IH]; [reflexivity|].
  change (S (String.length (a +:+ b)) = S (String.length a + String.length b)).
  rewrite IH. reflexivity.
Qed.

Lemma length_zero_pad (w : nat) (n : Z) : String.length (PyStr.zero_pad w n) = w.
Proof.
  revert n. induction w as [|w IH]; intros n; [reflexivity|].
  cbn [PyStr.zero_pad]. rewrite length_append, IH. cbn. lia.
Qed.

(** [str(y)] writes a year on as many digits as it has. *)
Lemma of_int_digits (y : Z) :
  0 <= y <= 9999 ->
  PyStr.of_int y
  = if y <? 10 then PyStr.zero_pad 1 y
    else if y <? 100 then PyStr.zero_pad 2 y
    else if y <? 1000 then PyStr.zero_pad 3 y
    else PyStr.zero_pad 4 y.
Proof.
  intros Hy. unfold PyStr.of_int.
  replace (y <? 0) with false by (symmetry; apply Z.ltb_ge; lia).
  destruct (y <? 10) eqn:E1.
  { cbn [PyStr.digits_of_pos]. rewrite E1. reflexivity. }
  apply Z.ltb_ge in E1.
  pose proof (Z.log2_le_mono 10 y E1) as H10. change (Z.log2 10) with 3 in H10.
  assert (F1 : (y <? 10) = false) by (apply Z.ltb_ge; lia).
  destruct (y <? 100) eqn:E2.
  { apply Z.ltb_lt in E2.
    assert (F2 : (y / 10 <? 10) = true)
      by (apply Z.ltb_lt; Z.div_mod_to_equations; lia).
    destruct (Z.to_nat (Z.log2 y)) as [|f] eqn:Ef; [lia|].
    cbn [PyStr.digits_of_pos]. rewrite F1, F2. reflexivity. }
  apply Z.ltb_ge in E2.
  pose proof (Z.log2_le_mono 100 y E2) as H100. change (Z.log2 100) with 6 in H100.
  assert (F2 : (y / 10 <? 10) = false)
    by (apply Z.ltb_ge; Z.div_mod_to_equations; lia).
  destruct (y <? 1000) eqn:E3.
  { apply Z.ltb_lt in E3.
    assert (F3 : (y / 10 / 10 <? 10) = true)
      by (apply Z.ltb_lt; Z.div_mod_to_equations; lia).
    destruct (Z.to_nat (Z.log2 y)) as [|[|f]] eqn:Ef; [lia|lia|].
    cbn [PyStr.digits_of_pos]. rewrite F1, F2, F3. reflexivity. }
  apply Z.ltb_ge in E3.
  pose proof (Z.log2_le_mono 1000 y E3) as H1000. change (Z.log2 1000) with 9 in H1000.
  assert (F3 : (y / 10 / 10 <? 10) = false)
    by (apply Z.ltb_ge; Z.div_mod_to_equations; lia).
  assert (F4 : (y / 10 / 10 / 10 <? 10) = true)
    by (apply Z.ltb_lt; Z.div_mod_to_equations; lia).
  destruct (Z.to_nat (Z.log2 y)) as [|[|[|f]]] eqn:Ef; [lia|lia|lia|].
  cbn [PyStr.digits_of_pos]. rewrite F1, F2, F3, F4. reflexivity.
Qed.

Lemma length_of_int (y : Z) :
  0 <= y <= 9999 ->
  (String.length (PyStr.of_int y) <= 4)%nat
  /\ (1000 <= y -> String.length (PyStr.of_int y) = 4%nat)
  /\ (y < 1000 -> (String.length (PyStr.of_int y) < 4)%nat).
Proof.
  intros Hy. rewrite (of_int_digits y Hy).
  destruct (y <? 10) eqn:E1; [|destruct (y <? 100) eqn:E2; [|destruct (y <? 1000) eqn:E3]];
    rewrite length_zero_pad;
    repeat match goal with
           | H : (_ <? _) = true |- _ => apply Z.ltb_lt in H
           | H : (_ <? _) = false |- _ => apply Z.ltb_ge in H
           end; lia.
Qed.

(** From 1000 on, the year has its four digits and the date is written
    as [YYYYMMDD]. *)
Lemma strftime_Ymd_YYYYMMDD (dt : date) :
  1000 <= year dt <= 9999 -> strftime_Ymd dt = YYYYMMDD dt.
Proof.
  intros Hy. unfold strftime_Ymd, YYYYMMDD. rewrite of_int_digits by lia.
  replace (year dt <? 10) with false by (symmetry; apply Z.ltb_ge; lia).
  replace (year dt <? 100) with false by (symmetry; apply Z.ltb_ge; lia).
  replace (year dt <? 1000) with false by (symmetry; apply Z.ltb_ge; lia).
  reflexivity.
Qed.

Lemma length_strftime_Ymd (dt : date) :
  String.length (strftime_Ymd dt) = (String.length (PyStr.of_int (year dt)) + 4)%nat.
Proof. unfold strftime_Ymd. rewrite !length_append, !length_zero_pad. reflexivity. Qed.

Lemma length_YYYYMMDD (dt : date) : String.length (YYYYMMDD dt) = 8%nat.
Proof. unfold YYYYMMDD. rewrite !length_append, !length_zero_pad. reflexivity. Qed.

Lemma length_substring (n m : nat) (s : string) :
  (String.length (String.substring n m s) <= m)%nat.
Proof.
  revert n m. induction s as [|c s IH]; intros n m.
  - destruct n, m; cbn; lia.
  - destruct n as [|n].
    + destruct m as [|m]; cbn; [lia|]. specialize (IH 0%nat m). lia.
    + cbn. apply IH.
Qed.

Lemma length_slice_to (s : string) (hi : Z) :
  0 <= hi -> (Z.of_nat (String.length (PyStr.slice_to s hi)) <= hi).
Proof.
  intros Hhi. unfold PyStr.slice_to, PyStr.slice, PyStr.adjust.
  replace (0 <? 0) with false by reflexivity.
  replace (hi <? 0) with false by (symmetry; apply Z.ltb_ge; lia).
  destruct (_ <? _) eqn:E; [|cbn; lia].
  pose proof (length_substring (Z.to_nat (Z.min 0 (PyStr.len s)))
                (Z.to_nat (Z.min hi (PyStr.len s) - Z.min 0 (PyStr.len s))) s).
  unfold PyStr.len in *. lia.
Qed.

Lemma try_formats_first (s : string) (fmts : list string) :
  forall (i : nat) (fmt : string) (dt : date),
    fmts !! i = Some fmt ->
    strptime s fmt = Some dt ->
    (forall (j : nat) fmt', (j < i)%nat -> fmts !! j = Some fmt' -> strptime s fmt' = None) ->
    try_formats s fmts = Some dt.
Proof.
  induction fmts as [|f fmts IH]; intros i fmt dt Hi Hp Hearlier; [destruct i; discriminate|].
  cbn [try_formats]. destruct i as [|i].
  - injection Hi as ->. rewrite Hp. reflexivity.
  - rewrite (Hearlier 0%nat f ltac:(lia) eq_refl).
    apply (IH i fmt dt Hi Hp). intros j fmt' Hj Hf.
    apply (Hearlier (S j) fmt'); [lia|exact Hf].
Qed.

Lemma try_formats_none (s : string) (fmts : list string) :
  (forall fmt, fmt ∈ fmts -> strptime s fmt = None) -> try_formats s fmts = None.
Proof.
  induction fmts as [|f fmts IH]; intros H; [reflexivity|].
  cbn [try_formats]. rewrite (H f) by left. apply IH. intros fmt Hin. apply H. right. exact Hin.
Qed.

Lemma try_formats_some (s : string) (fmts : list string) (fmt : string) :
  fmt ∈ fmts -> is_Some (strptime s fmt) -> is_Some (try_formats s fmts).
Proof.
  induction fmts as [|f fmts IH]; intros Hin Hs; [inversion Hin|].
  cbn [try_formats]. destruct (strptime s f) eqn:E; [eauto|].
  apply elem_of_cons in Hin as [->|Hin]; [rewrite E in Hs; destruct Hs; discriminate|].
  apply IH; assumption.
Qed.

Lemma strptime_valid (s fmt : string) (dt : date) :
  strptime s fmt = Some dt -> valid_date dt = true.
Proof.
  unfold strptime. destruct (tokens_of_format fmt) as [ts|]; [|discriminate].
  cbn [mbind option_bind]. destruct (regex_match ts s _) as [[dt' rest]|]; [|discriminate].
  cbn [mbind option_bind]. destruct (String.eqb rest ""); [|discriminate].
  cbn [andb]. destruct (valid_date dt') eqn:E; [|discriminate]. congruence.
Qed.

Lemma try_formats_valid (s : string) (fmts : list string) (dt : date) :
  try_formats s fmts = Some dt -> valid_date dt = true.
Proof.
  induction fmts as [|f fmts IH]; [discriminate|].
  cbn [try_formats]. destruct (strptime s f) eqn:E; [|exact IH].
  intros [= <-]. apply (strptime_valid _ _ _ E).
Qed.

Lemma format_date_at_most_eight (str_of_float : float -> string) (date_str : value) :
  (String.length (format_date str_of_float date_str) <= 8)%nat.
Proof.
  unfold format_date.
  destruct (negb (truthy date_str) || isna date_str); [cbn; lia|].
  destruct (try_formats _ _) as [dt|] eqn:E.
  - destruct (valid_date_bounds dt (try_formats_valid _ _ _ E)) as (Hy & _).
    rewrite length_strftime_Ymd.
    destruct (length_of_int (year dt) ltac:(lia)) as [Hle _]. lia.
  - pose proof (length_slice_to (py_str str_of_float date_str) 8). lia.
Qed.

(** Whatever it is given, [format_date] returns at most eight
    characters; when one of the formats parses, exactly eight if the
    year of the date is 1000 or later, and fewer if it is earlier. *)
Theorem format_date_length (str_of_float : float -> string) (date_str : value) :
  (String.length (format_date str_of_float date_str) <= 8)%nat
  /\ (forall dt,
        truthy date_str = true -> isna date_str = false ->
        try_formats (py_str str_of_float date_str) date_formats = Some dt ->
        (1000 <= year dt ->
         String.length (format_date str_of_float date_str) = 8%nat)
        /\ (year dt < 1000 ->
            (String.length (format_date str_of_float date_str) < 8)%nat)).
Proof.
  split; [apply format_date_at_most_eight|].
  intros dt Ht Hna Hdt.
  destruct (valid_date_bounds dt (try_formats_valid _ _ _ Hdt)) as (Hy & _).
  destruct (length_of_int (year dt) ltac:(lia)) as (_ & Hfour & Hless).
  unfold format_date. rewrite Ht, Hna, Hdt. cbn [negb orb].
  rewrite length_strftime_Ymd. split; intros H; [rewrite Hfour by exact H|
    specialize (Hless H)]; lia.
Qed.

Lemma format_date_length_witness :
  String.length (format_date (fun _ => "") (VStr "01/09/2023")) = 8%nat
  /\ (String.length (format_date (fun _ => "") (VStr "01/09/0999")) < 8)%nat.
Proof.
  split.
  - apply (proj2 (format_date_length (fun _ => "") (VStr "01/09/2023"))
             {| year := 2023; month := 9; day := 1 |}); [reflexivity..|].
    cbn [year]. lia.
  - apply (proj2 (format_date_length (fun _ => "") (VStr "01/09/0999"))
             {| year := 999; month := 9; day := 1 |}); [reflexivity..|].
    cbn [year]. lia.
Defined.

Lemma format_date_parsed (str_of_float : float -> string) (s : string) (dt : date) :
  s <> "" -> try_formats s date_formats = Some dt ->
  format_date str_of_float (VStr s) = strftime_Ymd dt.
Proof.
  intros Hs Htry. unfold format_date.
  replace (negb (truthy (VStr s)) || isna (VStr s)) with false
    by (cbn; destruct s; [congruence|reflexivity]).
  cbn [py_str]. rewrite Htry. reflexivity.
Qed.

Lemma try_formats_nonempty (s : string) (dt : date) :
  try_formats s date_formats = Some dt -> s <> "".
Proof. intros Hdt ->. vm_compute in Hdt. discriminate. Qed.

Lemma YYYYMMDD_nonempty (dt : date) : YYYYMMDD dt <> "".
Proof.
  intros H. pose proof (length_YYYYMMDD dt) as Hl. rewrite H in Hl. discriminate.
Qed.

Lemma try_formats_YYYYMMDD (dt : date) :
  valid_date dt = true -> try_formats (YYYYMMDD dt) date_formats = Some dt.
Proof.
  intros Hv. destruct (strptime_YYYYMMDD dt Hv) as [H1 H2].
  unfold date_formats. cbn [try_formats]. rewrite H1, H2. reflexivity.
Qed.

(** C6, as the code has it.  The formatter returns the empty text for an
    empty or missing value and, for a text that none of the formats
    [%Y-%m-%d], [%Y%m%d], [%d/%m/%Y], [%m/%d/%Y] parses, its first eight
    characters.  A text that the formats parse to the date [dt] is
    written by [strftime('%Y%m%d')], which gives the eight digits
    [YYYYMMDD] only from the year 1000 on: an earlier year is written
    without its leading zeros, so that the result is shorter than eight
    characters and is not [YYYYMMDD]. *)
Theorem format_date_YYYYMMDD_from_1000
    (str_of_float : float -> string) (s : string) :
  format_date str_of_float (VStr "") = ""
  /\ format_date str_of_float VNone = ""
  /\ date_formats = ["%Y-%m-%d"; "%Y%m%d"; "%d/%m/%Y"; "%m/%d/%Y"]
  /\ (s <> "" -> try_formats s date_formats = None ->
      format_date str_of_float (VStr s) = PyStr.slice_to s 8)
  /\ (forall dt : date,
        try_formats s date_formats = Some dt ->
        format_date str_of_float (VStr s) = strftime_Ymd dt
        /\ (1000 <= year dt -> format_date str_of_float (VStr s) = YYYYMMDD dt)
        /\ (year dt < 1000 ->
            format_date str_of_float (VStr s) <> YYYYMMDD dt
            /\ (String.length (format_date str_of_float (VStr s)) < 8)%nat)).
Proof.
  split; [reflexivity|]. split; [reflexivity|]. split; [reflexivity|]. split.
  - intros Hs Hnone. unfold format_date.
    replace (negb (truthy (VStr s)) || isna (VStr s)) with false
      by (cbn; destruct s; [congruence|reflexivity]).
    cbn [py_str]. rewrite Hnone. reflexivity.
  - intros dt Hdt.
    pose proof (try_formats_valid _ _ _ Hdt) as Hv.
    destruct (valid_date_bounds dt Hv) as (Hyear & _).
    rewrite (format_date_parsed str_of_float s dt (try_formats_nonempty s dt Hdt) Hdt).
    split; [reflexivity|]. split.
    + intros Hy. apply strftime_Ymd_YYYYMMDD. lia.
    + intros Hy.
      destruct (length_of_int (year dt) ltac:(lia)) as (_ & _ & Hless).
      specialize (Hless Hy).
      assert (Hlen : (String.length (strftime_Ymd dt) < 8)%nat)
        by (rewrite length_strftime_Ymd; lia).
      split; [|exact Hlen].
      intros Heq. rewrite Heq, length_YYYYMMDD in Hlen. lia.
Qed.

(** The examples of the specification, and a date of the year 999: the
    code returns ['9990101'], seven characters, where [YYYYMMDD] is
    ['09990101']. *)
Lemma format_date_YYYYMMDD_from_1000_witness :
  format_date (fun _ => "") (VStr "20230901") = "20230901"
  /\ format_date (fun _ => "") (VStr "2023-09-01") = "20230901"
  /\ format_date (fun _ => "") (VStr "abcdefgh") = "abcdefgh"
  /\ format_date (fun _ => "") (VStr "0999-01-01") = "9990101"
  /\ YYYYMMDD {| year := 999; month := 1; day := 1 |} = "09990101"
  /\ format_date (fun _ => "") (VStr "0999-01-01")
     <> YYYYMMDD {| year := 999; month := 1; day := 1 |}.
Proof.
  split; [|split; [|split; [|split; [|split]]]].
  - destruct (format_date_YYYYMMDD_from_1000 (fun _ => "") "20230901")
      as (_ & _ & _ & _ & H).
    destruct (H {| year := 2023; month := 9; day := 1 |} eq_refl) as (_ & H8 & _).
    rewrite H8; [reflexivity|cbn [year]; lia].
  - destruct (format_date_YYYYMMDD_from_1000 (fun _ => "") "2023-09-01")
      as (_ & _ & _ & _ & H).
    destruct (H {| year := 2023; month := 9; day := 1 |} eq_refl) as (_ & H8 & _).
    rewrite H8; [reflexivity|cbn [year]; lia].
  - destruct (format_date_YYYYMMDD_from_1000 (fun _ => "") "abcdefgh")
      as (_ & _ & _ & H & _).
    rewrite H; [reflexivity|discriminate|reflexivity].
  - destruct (format_date_YYYYMMDD_from_1000 (fun _ => "") "0999-01-01")
      as (_ & _ & _ & _ & H).
    destruct (H {| year := 999; month := 1; day := 1 |} eq_refl) as (H7 & _).
    rewrite H7. reflexivity.
  - reflexivity.
  - destruct (format_date_YYYYMMDD_from_1000 (fun _ => "") "0999-01-01")
      as (_ & _ & _ & _ & H).
    destruct (H {| year := 999; month := 1; day := 1 |} eq_refl) as (_ & _ & Hlt).
    apply Hlt. cbn [year]. lia.
Defined.

(** The date formatter on a text: the empty text, [None] and NaN give the
    empty text; otherwise the first format, in the order [%Y-%m-%d],
    [%Y%m%d], [%d/%m/%Y], [%m/%d/%Y], under which the text parses decides
    the date, which is written by [strftime('%Y%m%d')]; and a text that
    parses under none of them gives its first eight characters. *)
Theorem format_date_formats_in_order (str_of_float : float -> string) (s : string) :
  format_date str_of_float (VStr "") = ""
  /\ format_date str_of_float VNone = ""
  /\ format_date str_of_float (VFloat nan) = ""
  /\ date_formats = ["%Y-%m-%d"; "%Y%m%d"; "%d/%m/%Y"; "%m/%d/%Y"]
  /\ (s <> "" ->
      (forall (i : nat) fmt dt,
          date_formats !! i = Some fmt ->
          strptime s fmt = Some dt ->
          (forall (j : nat) fmt', (j < i)%nat -> date_formats !! j = Some fmt' ->
                                  strptime s fmt' = None) ->
          format_date str_of_float (VStr s) = strftime_Ymd dt)
      /\ ((forall fmt, fmt ∈ date_formats -> strptime s fmt = None) ->
          format_date str_of_float (VStr s) = PyStr.slice_to s 8)).
Proof.
  split; [reflexivity|]. split; [reflexivity|]. split; [reflexivity|].
  split; [reflexivity|]. intros Hs.
  assert (Ht : negb (truthy (VStr s)) || isna (VStr s) = false).
  { cbn. destruct s; [congruence|reflexivity]. }
  split.
  - intros i fmt dt Hi Hp Hearlier. unfold format_date. rewrite Ht.
    cbn [py_str]. rewrite (try_formats_first s date_formats i fmt dt Hi Hp Hearlier).
    reflexivity.
  - intros Hnone. unfold format_date. rewrite Ht. cbn [py_str].
    rewrite (try_formats_none s date_formats Hnone). reflexivity.
Qed.

Lemma format_date_formats_in_order_witness :
  format_date (fun _ => "") (VStr "2023-09-01") = "20230901"
  /\ format_date (fun _ => "") (VStr "20230901") = "20230901"
  /\ format_date (fun _ => "") (VStr "abcdefgh") = "abcdefgh"
  /\ format_date (fun _ => "") (VStr "abcdefghij") = "abcdefgh".
Proof.
  split; [|split; [|split]].
  - destruct (format_date_formats_in_order (fun _ => "") "2023-09-01")
      as (_ & _ & _ & _ & H).
    destruct (H ltac:(discriminate)) as [Hfirst _].
    rewrite (Hfirst 0%nat "%Y-%m-%d" {| year := 2023; month := 9; day := 1 |}
               eq_refl eq_refl); [reflexivity|].
    intros j fmt' Hj. lia.
  - destruct (format_date_formats_in_order (fun _ => "") "20230901")
      as (_ & _ & _ & _ & H).
    destruct (H ltac:(discriminate)) as [Hfirst _].
    rewrite (Hfirst 1%nat "%Y%m%d" {| year := 2023; month := 9; day := 1 |}
               eq_refl eq_refl); [reflexivity|].
    intros j fmt' Hj Hf. destruct j as [|j]; [|lia].
    injection Hf as <-. reflexivity.
  - destruct (format_date_formats_in_order (fun _ => "") "abcdefgh")
      as (_ & _ & _ & _ & H).
    destruct (H ltac:(discriminate)) as [_ Hnone].
    rewrite Hnone; [reflexivity|].
    intros fmt Hin.
    repeat (apply elem_of_cons in Hin as [->|Hin]; [reflexivity|]). inversion Hin.
  - destruct (format_date_formats_in_order (fun _ => "") "abcdefghij")
      as (_ & _ & _ & _ & H).
    destruct (H ltac:(discriminate)) as [_ Hnone].
    rewrite Hnone; [reflexivity|].
    intros fmt Hin.
    repeat (apply elem_of_cons in Hin as [->|Hin]; [reflexivity|]). inversion Hin.
Defined.

(** A text that the formats parse to a date of the year 1000 or later is
    formatted to the eight digits [YYYYMMDD] of that date, a text that
    [format_date] leaves as it is: on such texts the formatter is
    idempotent. *)
Theorem format_date_idempotent_on_dates
    (str_of_float : float -> string) (s : string) (dt : date) :
  try_formats s date_formats = Some dt ->
  1000 <= year dt ->
  format_date str_of_float (VStr s) = YYYYMMDD dt
  /\ format_date str_of_float (VStr (format_date str_of_float (VStr s)))
     = format_date str_of_float (VStr s).
Proof.
  intros Hdt Hy.
  pose proof (try_formats_valid _ _ _ Hdt) as Hv.
  destruct (valid_date_bounds dt Hv) as (Hyear & _).
  rewrite (format_date_parsed str_of_float s dt (try_formats_nonempty s dt Hdt) Hdt).
  rewrite (strftime_Ymd_YYYYMMDD dt) by lia. split; [reflexivity|].
  rewrite (format_date_parsed str_of_float (YYYYMMDD dt) dt (YYYYMMDD_nonempty dt)
             (try_formats_YYYYMMDD dt Hv)).
  apply strftime_Ymd_YYYYMMDD. lia.
Qed.

Lemma format_date_idempotent_on_dates_witness :
  format_date (fun _ => "") (VStr "9/1/2023") = "20230109"
  /\ format_date (fun _ => "") (VStr (format_date (fun _ => "") (VStr "9/1/2023")))
     = format_date (fun _ => "") (VStr "9/1/2023").
Proof.
  apply (format_date_idempotent_on_dates (fun _ => "") "9/1/2023"
           {| year := 2023; month := 1; day := 9 |}); [reflexivity|].
  cbn [year]. lia.
Defined.

(** Before the year 1000 the formatter is not idempotent: the seven
    characters it returns parse again, as another date. *)
Example format_date_not_idempotent_before_1000 :
  format_date (fun _ => "") (VStr "0999-01-01") = "9990101"
  /\ format_date (fun _ => "") (VStr "9990101") = "99901001".
Proof. split; reflexivity. Qed.

(** On a text that no format parses the formatter need not be
    idempotent: the first eight characters can parse. *)
Example format_date_not_idempotent :
  format_date (fun _ => "") (VStr "1/2/2023xx") = "1/2/2023"
  /\ format_date (fun _ => "") (VStr "1/2/2023") = "20230201".
Proof. split; reflexivity. Qed.

(** The four date fields come from two input fields: [VALUEDATE],
    [OPBALDATE] and [CLBALDATE] are always the same text, the formatted
    [VALUE_DATE]; [ENTRYDATE] is the formatted [DEAL_DATE]; the handler
    never raises and no field is longer than eight characters. *)
Theorem format_dates_from_config_fields
    (str_of_float : float -> string) (row : Row) (rule : TransformationRule) :
  let value_date := format_date str_of_float (row_get row "VALUE_DATE" (VStr "")) in
  let deal_date := format_date str_of_float (row_get row "DEAL_DATE" (VStr "")) in
  format_dates_from_config str_of_float row rule
  = ([], Ok [ ("VALUEDATE", VStr value_date); ("ENTRYDATE", VStr deal_date);
              ("OPBALDATE", VStr value_date); ("CLBALDATE", VStr value_date) ])
  /\ (String.length value_date <= 8)%nat
  /\ (String.length deal_date <= 8)%nat.
Proof.
  intros value_date deal_date. split; [reflexivity|].
  split; apply format_date_at_most_eight.
Qed.

(** ** Field mapper *)

(** A DEFAULT_VALUE mapping never reads the row, yet it needs its
    [input_field] key: without it the lookup error is raised on every
    row, with it the configured default is returned on every row. *)
Theorem default_value_mapping_ignores_row
    (str_of_float : float -> string) (mapping : FieldMapping) (row : Row) :
  fm_transformation mapping = Some "DEFAULT_VALUE" ->
  outcome (apply_field_mapping str_of_float row mapping)
  = match fm_input_field mapping, fm_default_value mapping with
    | None, _ => Raise (KeyError "input_field")
    | Some _, None => Raise (KeyError "default_value")
    | Some _, Some v => Ok v
    end.
Proof.
  intros Ht. unfold apply_field_mapping. rewrite Ht. monad_simpl.
  destruct (fm_input_field mapping); monad_simpl; [|reflexivity].
  destruct (fm_default_value mapping); reflexivity.
Qed.

Lemma default_value_mapping_ignores_row_witness :
  outcome (apply_field_mapping (fun _ => "") branch_row
             {| fm_output_field := Some "SIDE"; fm_input_field := None;
                fm_transformation := Some "DEFAULT_VALUE";
                fm_default_value := Some (VStr "C") |})
  = Raise (KeyError "input_field").
Proof.
  rewrite default_value_mapping_ignores_row; reflexivity.
Defined.

(** ** Row transformer: rules and mappings *)

Lemma outcome_foldM_app {A B} (f : A -> B -> M A) (l1 l2 : list B) (a : A) :
  outcome (foldM f (l1 ++ l2) a)
  = match outcome (foldM f l1 a) with
    | Ok a' => outcome (foldM f l2 a')
    | Raise e => Raise e
    end.
Proof.
  revert a. induction l1 as [|b l1 IH]; intros a; [reflexivity|].
  cbn [app foldM]. rewrite !outcome_bind.
  destruct (outcome (f a b)); [apply IH|reflexivity].
Qed.

Lemma apply_mapping_step_outcome sof row transformed mapping t' :
  outcome (apply_mapping_step sof row transformed mapping) = Ok t' ->
  exists output_field v,
    fm_output_field mapping = Some output_field
    /\ outcome (apply_field_mapping sof row mapping) = Ok v
    /\ t' = <[output_field := v]> transformed.
Proof.
  unfold apply_mapping_step. rewrite outcome_bind.
  destruct (fm_output_field mapping) as [output_field|]; [|discriminate].
  rewrite outcome_item_Some. cbv beta iota. rewrite outcome_bind.
  destruct (outcome (apply_field_mapping sof row mapping)) as [v|]; [|discriminate].
  cbv beta iota. rewrite outcome_ret. intros [= <-]. eauto.
Qed.

Lemma mappings_keep_other_fields sof row mappings (field : string) :
  Forall (fun m => fm_output_field m <> Some field) mappings ->
  forall transformed t',
    outcome (foldM (apply_mapping_step sof row) mappings transformed) = Ok t' ->
    t' !! field = transformed !! field.
Proof.
  induction 1 as [|m mappings Hm Hrest IH]; intros transformed t'.
  - cbn. intros [= <-]. reflexivity.
  - cbn [foldM]. rewrite outcome_bind.
    destruct (outcome (apply_mapping_step sof row transformed m)) as [t1|] eqn:E;
      [|discriminate].
    cbv beta iota. intros Hfold. rewrite (IH _ _ Hfold).
    destruct (apply_mapping_step_outcome _ _ _ _ _ E) as (f & v & Hf & _ & ->).
    apply lookup_insert_ne. congruence.
Qed.

(** Field mappings are applied after the rules and the last mapping to a
    field decides it: whatever the rules or earlier mappings set, the
    row that [transform_row] returns carries, under that field, the value
    of the last mapping that names it. *)
Theorem transform_row_last_mapping_wins
    (float_of_str : string -> option float) (str_of_float : float -> string)
    (self : ConfigDrivenETLConverter) (row transformed : Row)
    (pre post : list FieldMapping) (mapping : FieldMapping) (field : string) :
  field_mappings (processing_rules self) = Some (pre ++ mapping :: post) ->
  fm_output_field mapping = Some field ->
  Forall (fun m => fm_output_field m <> Some field) post ->
  outcome (transform_row float_of_str str_of_float self row) = Ok transformed ->
  exists v,
    outcome (apply_field_mapping str_of_float row mapping) = Ok v
    /\ transformed !! field = Some v.
Proof.
  intros Hm Hf Hpost. unfold transform_row, populate_row. rewrite Hm.
  rewrite !outcome_bind.
  destruct (outcome (item "transformation_rules" _)) as [rules|]; [|discriminate].
  cbv beta iota. rewrite !outcome_bind.
  destruct (outcome (foldM _ rules ∅)) as [t0|]; [|discriminate].
  cbv beta iota. rewrite outcome_bind, outcome_item_Some. cbv beta iota.
  rewrite outcome_foldM_app.
  destruct (outcome (foldM _ pre t0)) as [t1|]; [|discriminate].
  cbn [foldM]. rewrite outcome_bind.
  destruct (outcome (apply_mapping_step str_of_float row t1 mapping)) as [t2|] eqn:E2;
    [|discriminate].
  cbv beta iota.
  destruct (outcome (foldM _ post t2)) as [t3|] eqn:E3; [|discriminate].
  cbv beta iota. rewrite outcome_bind.
  destruct (outcome (all_output_fields self)) as [fields|]; [|discriminate].
  cbv beta iota. rewrite outcome_ret. intros [= <-].
  destruct (apply_mapping_step_outcome _ _ _ _ _ E2) as (f & v & Hf' & Hv & ->).
  assert (f = field) as -> by congruence.
  exists v. split; [exact Hv|].
  rewrite fill_defaults_lookup, (mappings_keep_other_fields _ _ _ _ Hpost _ _ E3).
  rewrite lookup_insert_eq. reflexivity.
Qed.

(** A DRORCR rule that sets [DRORCR], then two mappings to the same
    field. *)
Definition override_converter : ConfigDrivenETLConverter :=
  {| input_schema := empty_schema;
     output_schema :=
       {| sch_columns :=
            Some [ {| col_name := Some "DRORCR"; col_length := None;
                      col_data_type := None; col_required := None |} ];
          sch_validation_rules := None;
          sch_additional_fields := None |};
     processing_rules :=
       {| processing_name := "FLEX PP Balance Conversion";
          transformation_rules := Some [drorcr_rule];
          field_mappings :=
            Some [ {| fm_output_field := Some "DRORCR"; fm_input_field := Some "BRANCH";
                      fm_transformation := Some "DEFAULT_VALUE";
                      fm_default_value := Some (VStr "D") |};
                   {| fm_output_field := Some "DRORCR";
                      fm_input_field := Some "CONTRACT_STATUS";
                      fm_transformation := Some "DIRECT_COPY";
                      fm_default_value := None |} ] |} |}.

Lemma transform_row_last_mapping_wins_witness :
  exists transformed : Row,
    outcome (transform_row (fun _ => None) (fun _ => "") override_converter
               (drorcr_row "X" 5))
    = Ok transformed
    /\ transformed !! "DRORCR" = Some (VStr "X").
Proof.
  destruct (outcome (transform_row (fun _ => None) (fun _ => "") override_converter
                       (drorcr_row "X" 5))) as [t|e] eqn:E;
    [|vm_compute in E; discriminate].
  exists t. split; [reflexivity|].
  destruct (transform_row_last_mapping_wins (fun _ => None) (fun _ => "")
              override_converter (drorcr_row "X" 5) t
              [ {| fm_output_field := Some "DRORCR"; fm_input_field := Some "BRANCH";
                   fm_transformation := Some "DEFAULT_VALUE";
                   fm_default_value := Some (VStr "D") |} ]
              []
              {| fm_output_field := Some "DRORCR";
                 fm_input_field := Some "CONTRACT_STATUS";
                 fm_transformation := Some "DIRECT_COPY";
                 fm_default_value := None |}
              "DRORCR" eq_refl eq_refl ltac:(constructor) E) as (v & Hv & Ht).
  vm_compute in Hv. injection Hv as <-. exact Ht.
Defined.

(** The six rule identifiers that [apply_transformation_rule] knows. *)
Definition rule_ids : list string :=
  ["LEAF_GL_CALCULATION"; "ACCRUAL_ACCOUNT_LOGIC"; "DRORCR_CALCULATION";
   "BALANCE_SIGN_CALCULATION"; "DATE_FORMATTING"; "AMOUNT_CALCULATION"].

Definition known_rule (rule : TransformationRule) : bool :=
  match rule_id rule with
  | Some id => existsb (String.eqb id) rule_ids
  | None => true
  end.

Lemma apply_rule_step_unknown fos sof row transformed rule :
  known_rule rule = false ->
  outcome (apply_rule_step fos sof row transformed rule) = Ok transformed.
Proof.
  unfold known_rule, apply_rule_step, apply_transformation_rule.
  destruct (rule_id rule) as [id|]; [|discriminate].
  unfold rule_ids. cbn [existsb]. intros H.
  repeat (apply orb_false_elim in H as [? H]).
  monad_simpl.
  repeat match goal with
         | E : String.eqb id _ = false |- _ => rewrite E; clear E
         end.
  reflexivity.
Qed.

(** The transformation rule list of a converter, replaced. *)
Definition with_rules (self : ConfigDrivenETLConverter)
    (rules : list TransformationRule) : ConfigDrivenETLConverter :=
  {| input_schema := input_schema self;
     output_schema := output_schema self;
     processing_rules :=
       {| processing_name := processing_name (processing_rules self);
          transformation_rules := Some rules;
          field_mappings := field_mappings (processing_rules self) |} |}.

Lemma rules_without_unknown fos sof row rules :
  forall transformed,
    outcome (foldM (apply_rule_step fos sof row) rules transformed)
    = outcome (foldM (apply_rule_step fos sof row) (List.filter known_rule rules)
                 transformed).
Proof.
  induction rules as [|rule rules IH]; intros transformed; [reflexivity|].
  cbn [List.filter]. destruct (known_rule rule) eqn:E.
  - cbn [foldM]. rewrite !outcome_bind.
    destruct (outcome (apply_rule_step fos sof row transformed rule)); [apply IH|reflexivity].
  - cbn [foldM]. rewrite outcome_bind, (apply_rule_step_unknown _ _ _ _ _ E).
    cbv beta iota. apply IH.
Qed.

(** A rule whose [rule_id] is none of the six known identifiers is
    passed over without a word: the row comes out as it would from the
    configuration without such rules. *)
Theorem transform_row_ignores_unknown_rules
    (float_of_str : string -> option float) (str_of_float : float -> string)
    (self : ConfigDrivenETLConverter) (rules : list TransformationRule) (row : Row) :
  transformation_rules (processing_rules self) = Some rules ->
  outcome (transform_row float_of_str str_of_float self row)
  = outcome (transform_row float_of_str str_of_float
               (with_rules self (List.filter known_rule rules)) row).
Proof.
  intros Hr. unfold transform_row, populate_row, all_output_fields, with_rules.
  cbn [processing_rules transformation_rules field_mappings output_schema].
  rewrite Hr. rewrite !outcome_bind, !outcome_item_Some. cbv beta iota.
  rewrite !outcome_bind, (rules_without_unknown _ _ _ rules ∅).
  reflexivity.
Qed.

Definition rules_with_unknown : list TransformationRule :=
  [ {| rule_id := Some "FX_RATE_LOOKUP"; rule_output_field := Some "DRORCR";
       rule_logic := None |};
    drorcr_rule ].

Lemma transform_row_ignores_unknown_rules_witness :
  outcome (transform_row (fun _ => None) (fun _ => "")
             (with_rules drorcr_converter rules_with_unknown)
             (drorcr_row "X" (-3)))
  = Ok {[ "DRORCR" := VStr "D" ]}.
Proof.
  rewrite (transform_row_ignores_unknown_rules _ _
             (with_rules drorcr_converter rules_with_unknown) rules_with_unknown
             _ eq_refl).
  vm_compute. reflexivity.
Defined.

(** ** Validation and the orchestrator *)

Lemma bind_ret_l {A B} (a : A) (k : A -> M B) : bind (ret a) k = k a.
Proof. unfold bind, ret. destruct (k a). reflexivity. Qed.

Lemma required_names_silent (columns : list Column) :
  Forall (fun col => is_Some (col_name col)) columns ->
  required_names columns = ret (required_column_names columns).
Proof.
  induction 1 as [|col l [name Hn] Hl IH]; [reflexivity|].
  cbn [required_names]. unfold required_column_names. cbn [omap list_omap].
  destruct (default false (col_required col)).
  - rewrite Hn. cbn [item]. rewrite bind_ret_l, IH, bind_ret_l. reflexivity.
  - exact IH.
Qed.

(** A table that lacks a column the schema marks required fails
    validation at once: the missing columns are logged as an error, no
    named rule is looked at (a malformed one cannot raise any more), and
    the result is false. *)
Theorem validate_input_data_missing_required_column
    (self : ConfigDrivenETLConverter) (df : DataFrame) (columns : list Column)
    (column : Column) (name : string) :
  sch_columns (input_schema self) = Some columns ->
  Forall (fun col => is_Some (col_name col)) columns ->
  column ∈ columns ->
  col_required column = Some true ->
  col_name column = Some name ->
  name ∉ df_columns df ->
  name ∈ missing_from (required_column_names columns) df
  /\ validate_input_data self df
     = ([ (INFO, MsgValidating);
          (ERROR, MsgMissingColumns (missing_from (required_column_names columns) df)) ],
        Ok false).
Proof.
  intros Hc Hn Hin Hreq Hname Hnot.
  assert (Hmiss : name ∈ missing_from (required_column_names columns) df).
  { unfold missing_from. apply elem_of_difference. split.
    - apply elem_of_list_to_set. unfold required_column_names.
      apply list_elem_of_omap. exists column. split; [exact Hin|].
      rewrite Hreq. exact Hname.
    - rewrite elem_of_list_to_set. exact Hnot. }
  split; [exact Hmiss|].
  unfold validate_input_data. rewrite Hc. cbn [item].
  rewrite bind_ret_l, (required_names_silent _ Hn), bind_ret_l.
  replace (is_empty_set (missing_from (required_column_names columns) df)) with false.
  - reflexivity.
  - symmetry. apply bool_decide_eq_false. intros Hempty.
    rewrite Hempty in Hmiss. apply not_elem_of_empty in Hmiss. exact Hmiss.
Qed.

Definition empty_frame : DataFrame := {| df_columns := []; df_rows := [] |}.

Lemma validate_input_data_missing_required_column_witness :
  outcome (validate_input_data required_fields_converter empty_frame) = Ok false.
Proof.
  destruct (validate_input_data_missing_required_column
              required_fields_converter empty_frame _
              {| col_name := Some "CURRENCY_Cosmos"; col_length := Some 3;
                 col_data_type := Some "string"; col_required := Some true |}
              "CURRENCY_Cosmos" eq_refl
              ltac:(constructor; [eexists; reflexivity|constructor])
              ltac:(left) eq_refl eq_refl ltac:(intros H; inversion H)) as [_ ->].
  reflexivity.
Defined.

Lemma convert_data_frame_outcome fos sof self readlines read_csv df :
  outcome (validate_input_data self df) = Ok true ->
  outcome (convert_data fos sof self readlines read_csv (InputFrame df))
  = result_map (DataFrame_with_columns (transformed_rows fos sof self (df_rows df)))
               (outcome (all_output_fields self)).
Proof.
  intros Hv. unfold convert_data. monad_simpl.
  rewrite Hv. cbn [negb]. cbv beta iota. monad_simpl.
  rewrite transform_rows_outcome. cbv beta iota. monad_simpl.
  destruct (outcome (all_output_fields self)) as [fields|e]; [|reflexivity].
  cbv beta iota. monad_simpl. reflexivity.
Qed.

Lemma length_omap_le {A B} (f : A -> option B) (l : list A) :
  (length (omap f l) <= length l)%nat.
Proof.
  induction l as [|a l IH]; [reflexivity|].
  cbn [omap list_omap]. destruct (f a); cbn [length]; lia.
Qed.

Lemma length_omap_all {A B} (f : A -> option B) (l : list A) :
  Forall (fun a => is_Some (f a)) l -> length (omap f l) = length l.
Proof.
  induction 1 as [|a l [b Hb] Hl IH]; [reflexivity|].
  cbn [omap list_omap]. rewrite Hb. cbn [length]. rewrite IH. reflexivity.
Qed.

(** The table that [convert_data] returns has the output fields as its
    columns and never more rows than the input; it has as many rows when
    [transform_row] returns on every input row. *)
Theorem convert_data_row_count
    (float_of_str : string -> option float) (str_of_float : float -> string)
    (self : ConfigDrivenETLConverter)
    (readlines : string -> result (list string)) (read_csv : string -> result DataFrame)
    (df out : DataFrame) :
  outcome (validate_input_data self df) = Ok true ->
  outcome (convert_data float_of_str str_of_float self readlines read_csv (InputFrame df))
  = Ok out ->
  outcome (all_output_fields self) = Ok (df_columns out)
  /\ (length (df_rows out) <= length (df_rows df))%nat
  /\ (Forall (fun row => exists transformed,
                outcome (transform_row float_of_str str_of_float self row) = Ok transformed)
             (df_rows df) ->
      length (df_rows out) = length (df_rows df)).
Proof.
  intros Hv. rewrite (convert_data_frame_outcome _ _ _ _ _ _ Hv).
  destruct (outcome (all_output_fields self)) as [fields|]; [|discriminate].
  cbn [result_map]. intros [= <-]. unfold DataFrame_with_columns.
  cbn [df_columns df_rows]. rewrite length_map. unfold transformed_rows.
  split; [reflexivity|]. split; [apply length_omap_le|].
  intros Hall. apply length_omap_all.
  eapply Forall_impl; [exact Hall|]. intros row [t ->]. eauto.
Qed.

Lemma convert_data_row_count_witness :
  exists out : DataFrame,
    outcome (convert_data (fun _ => None) (fun _ => "") drorcr_converter
               (fun _ => Ok []) (fun _ => Raise (OSError "no such file"))
               (InputFrame three_row_frame))
    = Ok out
    /\ (length (df_rows out) <= 3)%nat.
Proof.
  destruct (outcome (convert_data (fun _ => None) (fun _ => "") drorcr_converter
                       (fun _ => Ok []) (fun _ => Raise (OSError "no such file"))
                       (InputFrame three_row_frame))) as [out|e] eqn:E;
    [|vm_compute in E; discriminate].
  exists out. split; [reflexivity|].
  assert (Hv : outcome (validate_input_data drorcr_converter three_row_frame) = Ok true)
    by (vm_compute; reflexivity).
  destruct (convert_data_row_count (fun _ => None) (fun _ => "") drorcr_converter
              (fun _ => Ok []) (fun _ => Raise (OSError "no such file"))
              three_row_frame out Hv E) as (_ & Hle & _).
  exact Hle.
Defined.

(** What [convert_data] raises before any row is transformed: a
    [ValueError] for an input that is neither a path nor a table, for a
    path that ends in neither [.dat] nor [.csv], and for a table that
    fails validation; and whatever the validator or the reading of the
    file raised, unchanged. *)
Theorem convert_data_errors
    (float_of_str : string -> option float) (str_of_float : float -> string)
    (self : ConfigDrivenETLConverter)
    (readlines : string -> result (list string)) (read_csv : string -> result DataFrame) :
  let run := convert_data float_of_str str_of_float self readlines read_csv in
  run InputOther = ([], Raise (ValueError "Input data must be DataFrame or file path"))
  /\ (forall path,
        PyStr.endswith path ".dat" = false -> PyStr.endswith path ".csv" = false ->
        run (InputPath path) = ([], Raise (ValueError "Unsupported file format")))
  /\ (forall df,
        outcome (validate_input_data self df) = Ok false ->
        outcome (run (InputFrame df)) = Raise (ValueError "Input data validation failed"))
  /\ (forall df e,
        outcome (validate_input_data self df) = Raise e ->
        outcome (run (InputFrame df)) = Raise e)
  /\ (forall path e,
        PyStr.endswith path ".dat" = true -> readlines path = Raise e ->
        outcome (run (InputPath path)) = Raise e)
  /\ (forall path e,
        PyStr.endswith path ".dat" = false -> PyStr.endswith path ".csv" = true ->
        read_csv path = Raise e ->
        outcome (run (InputPath path)) = Raise e).
Proof.
  intros run. unfold run, convert_data.
  split; [reflexivity|]. split; [|split; [|split; [|split]]].
  - intros path -> ->. reflexivity.
  - intros df Hv. monad_simpl. rewrite Hv. reflexivity.
  - intros df e Hv. monad_simpl. rewrite Hv. reflexivity.
  - intros path e -> Hr. rewrite outcome_bind. unfold read_dat_file.
    rewrite outcome_log_then, outcome_try_except, outcome_bind, outcome_lift, Hr.
    cbv beta iota. rewrite outcome_log_then. reflexivity.
  - intros path e -> -> Hr. rewrite outcome_bind, outcome_lift, Hr. reflexivity.
Qed.

Lemma convert_data_errors_witness :
  outcome (convert_data (fun _ => None) (fun _ => "") required_fields_converter
             (fun _ => Raise (OSError "no such file"))
             (fun _ => Raise (OSError "no such file"))
             (InputFrame currency_only_frame))
  = Raise (ValueError "Input data validation failed")
  /\ outcome (convert_data (fun _ => None) (fun _ => "") required_fields_converter
                (fun _ => Raise (OSError "no such file"))
                (fun _ => Raise (OSError "no such file"))
                (InputPath "sample_input.dat"))
     = Raise (OSError "no such file")
  /\ convert_data (fun _ => None) (fun _ => "") required_fields_converter
       (fun _ => Raise (OSError "no such file"))
       (fun _ => Raise (OSError "no such file"))
       (InputPath "sample_input.xlsx")
     = ([], Raise (ValueError "Unsupported file format")).
Proof.
  destruct (convert_data_errors (fun _ => None) (fun _ => "") required_fields_converter
              (fun _ => Raise (OSError "no such file"))
              (fun _ => Raise (OSError "no such file")))
    as (_ & Hpath & Hinvalid & _ & Hdat & _).
  split; [|split].
  - apply Hinvalid. vm_compute. reflexivity.
  - apply Hdat; reflexivity.
  - apply Hpath; reflexivity.
Defined.
